(** * Indigo hedging system: the collector and the dashboard analysis

    A shallow embedding of [realtime_data_collector.py] (class
    [RealTimeDataCollector]) and of the data and analysis functions of
    [app.py] ([load_data], [calculate_price_changes] and the two signal
    ladders of [main]).

    Numbers.  The program computes on binary64 values (Python [float],
    [numpy.float64]).  Here a finite value is the rational it denotes and
    arithmetic on finite values is exact; the three non-finite values are
    kept, because the program can produce them: numpy's division by zero
    gives an infinity or a NaN where Python's own division raises
    [ZeroDivisionError].  Rounding error, overflow and the sign of zero are
    outside the model.

    Effects.  The collector runs in a state-and-exception monad: the state
    holds the SQLite file, the log, and how far the clock and the random
    generator have been read; the answers of the network are an
    environment. *)

From Stdlib Require Import ZArith QArith Qround Qabs Lqa Lia.
From stdpp Require Import gmap strings list sorting.

Local Open Scope Z_scope.

(** ** Numbers *)

Module Num.

Inductive number : Type :=
  | Fin (q : Q)
  | PInf
  | NInf
  | NaN.

Definition Qltb (x y : Q) : bool :=
  match (x ?= y)%Q with Lt => true | _ => false end.

Definition Qis_zero (x : Q) : bool :=
  match (x ?= 0)%Q with Eq => true | _ => false end.

(** An infinity of the given sign ([true] is negative). *)
Definition inf (negative : bool) : number :=
  if negative then NInf else PInf.

Definition neg (x : number) : number :=
  match x with
  | Fin q => Fin (- q)
  | PInf => NInf
  | NInf => PInf
  | NaN => NaN
  end.

Definition add (x y : number) : number :=
  match x, y with
  | NaN, _ | _, NaN => NaN
  | Fin a, Fin b => Fin (a + b)
  | PInf, NInf | NInf, PInf => NaN
  | PInf, _ | _, PInf => PInf
  | NInf, _ | _, NInf => NInf
  end.

Definition sub (x y : number) : number := add x (neg y).

Definition mul (x y : number) : number :=
  match x, y with
  | NaN, _ | _, NaN => NaN
  | Fin a, Fin b => Fin (a * b)
  | Fin a, PInf | PInf, Fin a =>
      if Qis_zero a then NaN else inf (Qltb a 0)
  | Fin a, NInf | NInf, Fin a =>
      if Qis_zero a then NaN else inf (negb (Qltb a 0))
  | PInf, PInf | NInf, NInf => PInf
  | PInf, NInf | NInf, PInf => NaN
  end.

(** [x / y] on [numpy.float64]: a zero divisor gives an infinity, or NaN
    for 0/0, with a warning and no exception. *)
Definition np_div (x y : number) : number :=
  match x, y with
  | NaN, _ | _, NaN => NaN
  | Fin a, Fin b =>
      if Qis_zero b
      then (if Qis_zero a then NaN else inf (Qltb a 0))
      else Fin (a / b)
  | Fin _, (PInf | NInf) => Fin 0
  | PInf, Fin b => inf (Qltb b 0)
  | NInf, Fin b => inf (negb (Qltb b 0))
  | (PInf | NInf), (PInf | NInf) => NaN
  end.

(** [x < y]; every comparison with NaN is false. *)
Definition ltb (x y : number) : bool :=
  match x, y with
  | NaN, _ | _, NaN => false
  | Fin a, Fin b => Qltb a b
  | NInf, NInf | PInf, _ => false
  | NInf, _ => true
  | Fin _, PInf => true
  | Fin _, NInf => false
  end.

Definition gtb (x y : number) : bool := ltb y x.

Definition abs (x : number) : number :=
  match x with
  | Fin q => Fin (Qabs q)
  | PInf | NInf => PInf
  | NaN => NaN
  end.

Definition is_finite (x : number) : bool :=
  match x with Fin _ => true | _ => false end.

(** The nearest integer, ties to the even one. *)
Definition round_half_even (q : Q) : Z :=
  let f := Qfloor q in
  match (q - inject_Z f ?= 1 # 2)%Q with
  | Lt => f
  | Gt => f + 1
  | Eq => if Z.even f then f else f + 1
  end.

(** [round(x, ndigits)]: a non-finite value is returned as it is. *)
Definition round (x : number) (ndigits : nat) : number :=
  match x with
  | Fin q =>
      Fin (round_half_even (q * inject_Z (10 ^ Z.of_nat ndigits))
           # Z.to_pos (10 ^ Z.of_nat ndigits))
  | _ => x
  end.

(** Same value: equal rationals, or the same non-finite value. *)
Definition eqv (x y : number) : Prop :=
  match x, y with
  | Fin a, Fin b => (a == b)%Q
  | PInf, PInf | NInf, NInf | NaN, NaN => True
  | _, _ => False
  end.

(** [lo <= x <= hi] for a finite [x]. *)
Definition within (lo hi : Q) (x : number) : Prop :=
  match x with
  | Fin q => (lo <= q)%Q /\ (q <= hi)%Q
  | _ => False
  end.

End Num.

Export Num.

(** ** Python values, exceptions and the monad of the collector *)

(** What the dictionaries of the program hold. *)
Inductive pyobj : Type :=
  | PyFloat (x : number)
  | PyDatetime (t : Z).

Abbreviation dict := (gmap string pyobj).

Inductive exn : Type :=
  | ConnectionError
  | JSONDecodeError
  | KeyError (key : string)
  | IndexError
  | TypeError
  | ZeroDivisionError
  | OperationalError
  | InterfaceError.

Inductive result (A : Type) : Type :=
  | Ok (a : A)
  | Raise (e : exn).
Arguments Ok {A} a.
Arguments Raise {A} e.

Inductive level : Type := INFO | WARNING | ERROR.

(** One row of table [fuel_prices]. *)
Record FuelRow : Type := mkFuelRow {
  fuel_timestamp : Z;
  jet_fuel : number;
  brent_crude : number;
  wti_crude : number;
}.

(** One row of table [currency_rates]. *)
Record CurrencyRow : Type := mkCurrencyRow {
  currency_timestamp : Z;
  usd_inr : number;
  eur_inr : number;
  gbp_inr : number;
  jpy_inr : number;
}.

(** The file [hedging_data.db]: whether it can be opened, whether it takes
    writes, and its two tables in insertion order ([None]: no such
    table). *)
Record Database : Type := mkDatabase {
  reachable : bool;
  writable : bool;
  fuel_prices : option (list FuelRow);
  currency_rates : option (list CurrencyRow);
}.

(** What [Ticker(symbol).history(period="1d")] answers: an exception, or a
    frame, of which the program reads column [Close]. *)
Inductive History : Type :=
  | HistoryRaises (e : exn)
  | HistoryFrame (close : list number).

(** What [session.get(url, timeout=10)] answers.  [rates] is
    [response.json()['rates']], [None] when the body is not JSON or has no
    such key. *)
Inductive HttpResult : Type :=
  | GetRaises (e : exn)
  | Response (status_code : Z) (rates : option (gmap string number)).

Record Env : Type := mkEnv {
  yf_history : string -> History;
  exchangerate_api : HttpResult;
  (** successive readings of [datetime.now()] *)
  clock : nat -> Z;
  (** successive 32-bit outputs of the generator behind [random] *)
  genrand_uint32 : nat -> Z;
}.

Record State : Type := mkState {
  clock_reads : nat;
  rng_reads : nat;
  db : Database;
  (** calls of [sqlite3.connect] so far *)
  connections : nat;
  log : list (level * string);
}.

Definition set_clock_reads (n : nat) (s : State) : State :=
  mkState n (rng_reads s) (db s) (connections s) (log s).

Definition set_rng_reads (n : nat) (s : State) : State :=
  mkState (clock_reads s) n (db s) (connections s) (log s).

Definition set_db (d : Database) (s : State) : State :=
  mkState (clock_reads s) (rng_reads s) d (connections s) (log s).

Definition set_connections (n : nat) (s : State) : State :=
  mkState (clock_reads s) (rng_reads s) (db s) n (log s).

Definition set_log (l : list (level * string)) (s : State) : State :=
  mkState (clock_reads s) (rng_reads s) (db s) (connections s) l.

Definition M (A : Type) : Type := State -> result A * State.

#[export] Instance M_ret : MRet M := fun A a s => (Ok a, s).

#[export] Instance M_bind : MBind M := fun A B f m s =>
  match m s with
  | (Ok a, s') => f a s'
  | (Raise e, s') => (Raise e, s')
  end.

Definition raise {A : Type} (e : exn) : M A := fun s => (Raise e, s).

(** [try: body  except Exception as e: handler e] *)
Definition try_except {A : Type} (body : M A) (handler : exn -> M A) : M A :=
  fun s =>
    match body s with
    | (Raise e, s') => handler e s'
    | r => r
    end.

Definition get_state : M State := fun s => (Ok s, s).

Definition put_state (s : State) : M unit := fun _ => (Ok tt, s).

Definition logger (l : level) (msg : string) : M unit :=
  fun s => (Ok tt, set_log (log s ++ [(l, msg)]) s).

(** [d[key]] *)
Definition getitem (d : dict) (key : string) : M pyobj :=
  match d !! key with
  | Some v => mret v
  | None => raise (KeyError key)
  end.

(** The dict display [{k1: v1, ..., kn: vn}]: a later key overrides. *)
Definition dict_display (items : list (string * pyobj)) : dict :=
  foldl (fun d kv => <[kv.1 := kv.2]> d) ∅ items.

(** Blocks of statements that may execute [return v]: [Some v] when they
    did, [None] when control runs off their end.  For a whole function body
    [None] is Python's implicit [return None]. *)
Definition returned {A : Type} (v : A) : M (option A) := mret (Some v).

Definition fall_through {A : Type} : M (option A) := mret None.

Definition and_then {A : Type} (block rest : M (option A)) : M (option A) :=
  r ← block;
  match r with
  | Some v => mret (Some v)
  | None => rest
  end.

(** [o[key]] for a value annotated [Optional[Dict]]. *)
Definition subscript (o : option dict) (key : string) : M pyobj :=
  match o with
  | Some d => getitem d key
  | None => raise TypeError
  end.

(** Truth value of an [Optional[Dict]]: [None] and [{}] are false. *)
Definition truthy (o : option dict) : bool :=
  match o with
  | Some d => negb (bool_decide (d = ∅))
  | None => false
  end.

(** [x / y] on Python numbers: a zero divisor raises. *)
Definition py_truediv (x y : number) : M number :=
  match y with
  | Fin b => if Qis_zero b then raise ZeroDivisionError else mret (np_div x y)
  | _ => mret (np_div x y)
  end.

(** [f"{v:.3f}"] and the like: only a number takes the format. *)
Definition format_f (v : pyobj) : M unit :=
  match v with
  | PyFloat _ => mret tt
  | PyDatetime _ => raise TypeError
  end.

(** An open connection: the tables as its transaction sees them. *)
Record Connection : Type := mkConnection {
  conn_fuel_prices : option (list FuelRow);
  conn_currency_rates : option (list CurrencyRow);
}.

(** Opening the file. *)
Definition open_database (d : Database) : result Connection :=
  if reachable d
  then Ok (mkConnection (fuel_prices d) (currency_rates d))
  else Raise OperationalError.

(** [sqlite3.connect('hedging_data.db')] in the collector. *)
Definition sqlite3_connect : M Connection := fun s =>
  (open_database (db s), set_connections (S (connections s)) s).

(** Binding a parameter to a column: the timestamp column takes the
    datetime, the price columns take numbers. *)
Definition bind_datetime (v : pyobj) : M Z :=
  match v with
  | PyDatetime t => mret t
  | PyFloat _ => raise InterfaceError
  end.

Definition bind_real (v : pyobj) : M number :=
  match v with
  | PyFloat x => mret x
  | PyDatetime _ => raise InterfaceError
  end.

(** [conn.execute('INSERT INTO fuel_prices ... VALUES (?, ?, ?, ?)', params)]:
    the row is pending until [commit]. *)
Definition execute_insert_fuel (conn : Connection)
    (params : pyobj * pyobj * pyobj * pyobj) : M Connection :=
  let '(timestamp, jet, brent, wti) := params in
  match conn_fuel_prices conn with
  | None => raise OperationalError
  | Some rows =>
      t ← bind_datetime timestamp;
      j ← bind_real jet;
      b ← bind_real brent;
      w ← bind_real wti;
      s ← get_state;
      if writable (db s)
      then mret (mkConnection (Some (rows ++ [mkFuelRow t j b w]))
                              (conn_currency_rates conn))
      else raise OperationalError
  end.

Definition execute_insert_currency (conn : Connection)
    (params : pyobj * pyobj * pyobj * pyobj * pyobj) : M Connection :=
  let '(timestamp, usd, eur, gbp, jpy) := params in
  match conn_currency_rates conn with
  | None => raise OperationalError
  | Some rows =>
      t ← bind_datetime timestamp;
      u ← bind_real usd;
      e ← bind_real eur;
      g ← bind_real gbp;
      j ← bind_real jpy;
      s ← get_state;
      if writable (db s)
      then mret (mkConnection (conn_fuel_prices conn)
                              (Some (rows ++ [mkCurrencyRow t u e g j])))
      else raise OperationalError
  end.

(** [conn.commit()]: the pending rows reach the file. *)
Definition commit (conn : Connection) : M unit :=
  s ← get_state;
  put_state
    (set_db (mkDatabase (reachable (db s)) (writable (db s))
                        (conn_fuel_prices conn) (conn_currency_rates conn)) s).

(** [conn.close()] *)
Definition close (conn : Connection) : M unit := mret tt.

Section Collector.

Context (env : Env).

Definition datetime_now : M pyobj := fun s =>
  (Ok (PyDatetime (clock env (clock_reads s))),
   set_clock_reads (S (clock_reads s)) s).

(** [random.random()]: two outputs of the generator, 27 and 26 bits of
    them, make a multiple of 2^-53 in [0, 1). *)
Definition random_random : M Q := fun s =>
  let a := Z.shiftr (genrand_uint32 env (rng_reads s) mod 2 ^ 32) 5 in
  let b := Z.shiftr (genrand_uint32 env (S (rng_reads s)) mod 2 ^ 32) 6 in
  (Ok ((a * 67108864 + b) # 9007199254740992),
   set_rng_reads (S (S (rng_reads s))) s).

(** [random.uniform(a, b)] is [a + (b - a) * random()]. *)
Definition random_uniform (a b : Q) : M number :=
  r ← random_random; mret (Fin (a + (b - a) * r)).

Definition ticker_history (symbol : string) : M (list number) :=
  match yf_history env symbol with
  | HistoryRaises e => raise e
  | HistoryFrame close => mret close
  end.

(** [frame['Close'].iloc[-1]] *)
Definition iloc_last (close : list number) : M number :=
  match last close with
  | Some x => mret x
  | None => raise IndexError
  end.

Definition _get_fallback_fuel_prices : M dict :=
  jet ← random_uniform 2.3 2.6;
  brent ← random_uniform 60 70;
  wti ← random_uniform 55 65;
  now ← datetime_now;
  mret (dict_display
    [("jet_fuel", PyFloat (round jet 6));
     ("brent_crude", PyFloat (round brent 2));
     ("wti_crude", PyFloat (round wti 2));
     ("timestamp", now)]).

Definition _get_fallback_currency_rates : M dict :=
  usd ← random_uniform 88 90;
  eur ← random_uniform 102 105;
  gbp ← random_uniform 117 120;
  jpy ← random_uniform 0.57 0.58;
  now ← datetime_now;
  mret (dict_display
    [("usd_inr", PyFloat (round usd 2));
     ("eur_inr", PyFloat (round eur 2));
     ("gbp_inr", PyFloat (round gbp 2));
     ("jpy_inr", PyFloat (round jpy 6));
     ("timestamp", now)]).

Definition get_live_fuel_prices : M (option dict) :=
  try_except
    (logger INFO "Fetching live fuel prices...";;
     brent_data ← ticker_history "BZ=F";
     wti_data ← ticker_history "CL=F";
     if negb (bool_decide (brent_data = [])) && negb (bool_decide (wti_data = []))
     then
       brent_price ← iloc_last brent_data;
       wti_price ← iloc_last wti_data;
       let jet_fuel_price :=
         mul (np_div (add brent_price wti_price) (Fin 2)) (Fin 1.35) in
       now ← datetime_now;
       let fuel_prices := dict_display
         [("jet_fuel", PyFloat (round jet_fuel_price 6));
          ("brent_crude", PyFloat (round brent_price 2));
          ("wti_crude", PyFloat (round wti_price 2));
          ("timestamp", now)] in
       logger INFO "Live fuel prices collected";;
       returned fuel_prices
     else
       logger WARNING "Could not fetch live fuel prices, using fallback";;
       fallback ← _get_fallback_fuel_prices;
       returned fallback)
    (fun e =>
       logger ERROR "Error fetching live fuel prices";;
       fallback ← _get_fallback_fuel_prices;
       returned fallback).

(** [self.session.get('https://api.exchangerate-api.com/v4/latest/USD',
    timeout=10)] *)
Definition session_get : M (Z * option (gmap string number)) :=
  match exchangerate_api env with
  | GetRaises e => raise e
  | Response status_code rates => mret (status_code, rates)
  end.

(** [response.json()['rates']] *)
Definition json_rates (response : Z * option (gmap string number))
    : M (gmap string number) :=
  match response.2 with
  | Some rates => mret rates
  | None => raise JSONDecodeError
  end.

(** [rates.get(key, fallback)] *)
Definition rates_get (rates : gmap string number) (key : string)
    (fallback : Q) : number :=
  default (Fin fallback) (rates !! key).

(** Method 1 of [get_live_currency_rates]: exchangerate-api.com. *)
Definition exchangerate_method : M (option dict) :=
  try_except
    (response ← session_get;
     if bool_decide (response.1 = 200)
     then
       rates ← json_rates response;
       let usd := round (rates_get rates "INR" 83.0) 2 in
       eur ← py_truediv (rates_get rates "INR" 83.0) (rates_get rates "EUR" 0.85);
       gbp ← py_truediv (rates_get rates "INR" 83.0) (rates_get rates "GBP" 0.73);
       jpy ← py_truediv (rates_get rates "INR" 83.0) (rates_get rates "JPY" 110.0);
       now ← datetime_now;
       let currency_rates := dict_display
         [("usd_inr", PyFloat usd);
          ("eur_inr", PyFloat (round eur 2));
          ("gbp_inr", PyFloat (round gbp 2));
          ("jpy_inr", PyFloat (round jpy 6));
          ("timestamp", now)] in
       logger INFO "Live currency rates collected";;
       returned currency_rates
     else fall_through)
    (fun e => logger WARNING "ExchangeRate API failed";; fall_through).

(** [round(frame['Close'].iloc[-1], ndigits) if not frame.empty else literal] *)
Definition close_or (close : list number) (ndigits : nat) (literal : Q)
    : M number :=
  if negb (bool_decide (close = []))
  then x ← iloc_last close; mret (round x ndigits)
  else mret (Fin literal).

(** Method 2 of [get_live_currency_rates]: Yahoo Finance. *)
Definition yahoo_method : M (option dict) :=
  try_except
    (usd_data ← ticker_history "USDINR=X";
     eur_data ← ticker_history "EURINR=X";
     gbp_data ← ticker_history "GBPINR=X";
     jpy_data ← ticker_history "JPYINR=X";
     if negb (bool_decide (usd_data = []))
     then
       usd ← iloc_last usd_data;
       eur ← close_or eur_data 2 90.0;
       gbp ← close_or gbp_data 2 105.0;
       jpy ← close_or jpy_data 6 0.55;
       now ← datetime_now;
       let currency_rates := dict_display
         [("usd_inr", PyFloat (round usd 2));
          ("eur_inr", PyFloat eur);
          ("gbp_inr", PyFloat gbp);
          ("jpy_inr", PyFloat jpy);
          ("timestamp", now)] in
       logger INFO "Live currency rates collected via Yahoo Finance";;
       returned currency_rates
     else fall_through)
    (fun e => logger WARNING "Yahoo Finance currency API failed";; fall_through).

Definition get_live_currency_rates : M (option dict) :=
  try_except
    (logger INFO "Fetching live currency rates...";;
     and_then exchangerate_method
       (and_then yahoo_method
          (fallback ← _get_fallback_currency_rates;
           returned fallback)))
    (fun e =>
       logger ERROR "Error fetching live currency rates";;
       fallback ← _get_fallback_currency_rates;
       returned fallback).

Definition store_data_in_database (fuel_prices currency_rates : option dict)
    : M unit :=
  try_except
    (conn ← sqlite3_connect;
     timestamp ← subscript fuel_prices "timestamp";
     jet ← subscript fuel_prices "jet_fuel";
     brent ← subscript fuel_prices "brent_crude";
     wti ← subscript fuel_prices "wti_crude";
     conn ← execute_insert_fuel conn (timestamp, jet, brent, wti);
     timestamp ← subscript currency_rates "timestamp";
     usd ← subscript currency_rates "usd_inr";
     eur ← subscript currency_rates "eur_inr";
     gbp ← subscript currency_rates "gbp_inr";
     jpy ← subscript currency_rates "jpy_inr";
     conn ← execute_insert_currency conn (timestamp, usd, eur, gbp, jpy);
     commit conn;;
     close conn;;
     logger INFO "Data stored in database successfully")
    (fun e => logger ERROR "Error storing data in database").

(** The report printed after storing: each line reads its field and
    formats it. *)
Definition print_report (fuel_prices currency_rates : option dict) : M unit :=
  datetime_now;;
  (v ← subscript fuel_prices "jet_fuel"; format_f v);;
  (v ← subscript fuel_prices "brent_crude"; format_f v);;
  (v ← subscript fuel_prices "wti_crude"; format_f v);;
  (v ← subscript currency_rates "usd_inr"; format_f v);;
  (v ← subscript currency_rates "eur_inr"; format_f v);;
  (v ← subscript currency_rates "gbp_inr"; format_f v);;
  (v ← subscript currency_rates "jpy_inr"; format_f v).

Definition collect_and_store_realtime_data : M bool :=
  try_except
    (logger INFO "Starting real-time data collection...";;
     fuel_prices ← get_live_fuel_prices;
     currency_rates ← get_live_currency_rates;
     if truthy fuel_prices && truthy currency_rates
     then
       store_data_in_database fuel_prices currency_rates;;
       print_report fuel_prices currency_rates;;
       mret true
     else
       logger ERROR "Failed to collect real-time data";;
       mret false)
    (fun e =>
       logger ERROR "Error in real-time data collection";;
       mret false).

End Collector.

(** ** The dashboard: loading and analysis ([app.py]) *)

#[export] Instance result_ret : MRet result := fun A a => Ok a.

#[export] Instance result_bind : MBind result := fun A B f r =>
  match r with
  | Ok a => f a
  | Raise e => Raise e
  end.

(** A data frame is the list of its rows, first row first. *)
Abbreviation FuelFrame := (list FuelRow).
Abbreviation CurrencyFrame := (list CurrencyRow).

Definition newer_fuel (r1 r2 : FuelRow) : Prop :=
  fuel_timestamp r2 ≤ fuel_timestamp r1.

Definition newer_currency (r1 r2 : CurrencyRow) : Prop :=
  currency_timestamp r2 ≤ currency_timestamp r1.

#[export] Instance newer_fuel_dec r1 r2 : Decision (newer_fuel r1 r2).
Proof. unfold newer_fuel. apply _. Defined.

#[export] Instance newer_currency_dec r1 r2 : Decision (newer_currency r1 r2).
Proof. unfold newer_currency. apply _. Defined.

(** [pd.read_sql_query("SELECT * FROM fuel_prices ORDER BY timestamp DESC
    LIMIT 100", conn)], the timestamp column then parsed by
    [pd.to_datetime]; timestamps are instants here, so parsing changes
    nothing. *)
Definition read_fuel_prices (conn : Connection) : result FuelFrame :=
  match conn_fuel_prices conn with
  | Some rows => Ok (take 100 (merge_sort newer_fuel rows))
  | None => Raise OperationalError
  end.

Definition read_currency_rates (conn : Connection) : result CurrencyFrame :=
  match conn_currency_rates conn with
  | Some rows => Ok (take 100 (merge_sort newer_currency rows))
  | None => Raise OperationalError
  end.

(** The two functions below show a message with [st.error] on their
    failure paths; the message is not part of what they return and is left
    out. *)
Definition get_database_connection (d : Database) : option Connection :=
  match open_database d with
  | Ok conn => Some conn
  | Raise e => None
  end.

Definition load_data (d : Database)
    : option FuelFrame * option CurrencyFrame :=
  match get_database_connection d with
  | None => (None, None)
  | Some conn =>
      match
        fuel_df ← read_fuel_prices conn;
        currency_df ← read_currency_rates conn;
        mret (fuel_df, currency_df)
      with
      | Ok (fuel_df, currency_df) => (Some fuel_df, Some currency_df)
      | Raise e => (None, None)
      end
  end.

(** [df.iloc[i]] *)
Definition iloc {A : Type} (df : list A) (i : nat) : result A :=
  match df !! i with
  | Some row => Ok row
  | None => Raise IndexError
  end.

(** [(latest - previous) / previous * 100] on numpy values, the expression
    [calculate_price_changes] writes out once per column. *)
Definition pct_change (latest previous : number) : number :=
  mul (np_div (sub latest previous) previous) (Fin 100).

Definition calculate_price_changes (fuel_df : FuelFrame)
    (currency_df : CurrencyFrame) : result (gmap string number) :=
  if bool_decide (fuel_df = []) || bool_decide (currency_df = [])
  then mret ∅
  else
    let changes : gmap string number := ∅ in
    changes ←
      (if bool_decide (2 ≤ length fuel_df)%nat
       then
         latest_fuel ← iloc fuel_df 0;
         previous_fuel ← iloc fuel_df 1;
         mret (
           <["wti_change" :=
               pct_change (wti_crude latest_fuel) (wti_crude previous_fuel)]> (
           <["brent_change" :=
               pct_change (brent_crude latest_fuel) (brent_crude previous_fuel)]> (
           <["jet_fuel_change" :=
               pct_change (jet_fuel latest_fuel) (jet_fuel previous_fuel)]>
           changes)))
       else mret changes);
    changes ←
      (if bool_decide (2 ≤ length currency_df)%nat
       then
         latest_currency ← iloc currency_df 0;
         previous_currency ← iloc currency_df 1;
         mret (
           <["jpy_inr_change" :=
               pct_change (jpy_inr latest_currency) (jpy_inr previous_currency)]> (
           <["gbp_inr_change" :=
               pct_change (gbp_inr latest_currency) (gbp_inr previous_currency)]> (
           <["eur_inr_change" :=
               pct_change (eur_inr latest_currency) (eur_inr previous_currency)]> (
           <["usd_inr_change" :=
               pct_change (usd_inr latest_currency) (usd_inr previous_currency)]>
           changes))))
       else mret changes);
    mret changes.

Inductive FuelSignal : Type :=
  | HIGH_HEDGE
  | MODERATE_HEDGE
  | LOW_HEDGE
  | MONITOR.

Inductive CurrencySignal : Type :=
  | HIGH_VOLATILITY
  | MODERATE_VOLATILITY
  | STABLE.

(** The ladder of "Fuel Hedging Analysis" in [main]. *)
Definition fuel_signal (jet_change : number) : FuelSignal :=
  if gtb jet_change (Fin 2) then HIGH_HEDGE
  else if gtb jet_change (Fin 0.5) then MODERATE_HEDGE
  else if ltb jet_change (Fin (-1)) then LOW_HEDGE
  else MONITOR.

(** The ladder of "Currency Hedging Analysis" in [main]. *)
Definition currency_signal (usd_change : number) : CurrencySignal :=
  if gtb (abs usd_change) (Fin 1) then HIGH_VOLATILITY
  else if gtb (abs usd_change) (Fin 0.3) then MODERATE_VOLATILITY
  else STABLE.

(** [changes.get(key, 0)] *)
Definition changes_get (changes : gmap string number) (key : string) : number :=
  default (Fin 0) (changes !! key).

Definition fuel_hedging_analysis (changes : gmap string number) : FuelSignal :=
  fuel_signal (changes_get changes "jet_fuel_change").

Definition currency_hedging_analysis (changes : gmap string number)
    : CurrencySignal :=
  currency_signal (changes_get changes "usd_inr_change").

(** What [main] comes to after loading: it stops with an error when
    nothing could be loaded, with a warning when a series is empty, and
    otherwise analyses the two frames. *)
Inductive Page : Type :=
  | UnableToLoad
  | NoDataAvailable
  | Crashed (e : exn)
  | Recommendations (changes : gmap string number)
      (fuel : FuelSignal) (currency : CurrencySignal).

Definition main (d : Database) : Page :=
  match load_data d with
  | (Some fuel_df, Some currency_df) =>
      if bool_decide (fuel_df = []) || bool_decide (currency_df = [])
      then NoDataAvailable
      else
        match calculate_price_changes fuel_df currency_df with
        | Ok changes =>
            Recommendations changes (fuel_hedging_analysis changes)
                            (currency_hedging_analysis changes)
        | Raise e => Crashed e
        end
  | _ => UnableToLoad
  end.

(** ** Vocabulary of the statements *)

(** Field [key] of [d] is a finite number between [lo] and [hi]. *)
Definition field_within (d : dict) (key : string) (lo hi : Q) : Prop :=
  exists x, d !! key = Some (PyFloat x) /\ within lo hi x.

(** Field [key] of [d] is the number [x]. *)
Definition field_is (d : dict) (key : string) (x : number) : Prop :=
  d !! key = Some (PyFloat x).

Definition has_timestamp (d : dict) : Prop :=
  exists t, d !! "timestamp" = Some (PyDatetime t).

Definition fuel_keys : gset string :=
  {["jet_fuel"; "brent_crude"; "wti_crude"; "timestamp"]}.

Definition currency_keys : gset string :=
  {["usd_inr"; "eur_inr"; "gbp_inr"; "jpy_inr"; "timestamp"]}.

(** The state differs from [s] only in what was logged and in how far the
    clock and the generator were read. *)
Definition only_read (s s' : State) : Prop :=
  db s' = db s /\ connections s' = connections s.

(** A divisor on which Python's [/] does not raise. *)
Definition divides (y : number) : bool :=
  match y with
  | Fin b => negb (Qis_zero b)
  | _ => true
  end.

(** Method 1 returns rates: the service answers HTTP 200 with a JSON body
    holding a rate table, and none of the three divisors is zero. *)
Definition exchangerate_answers (r : HttpResult) : bool :=
  match r with
  | Response status_code (Some rates) =>
      bool_decide (status_code = 200)
      && divides (rates_get rates "EUR" 0.85)
      && divides (rates_get rates "GBP" 0.73)
      && divides (rates_get rates "JPY" 110.0)
  | _ => false
  end.

(** [round(close[-1], ndigits)] when the quote has data, else the literal. *)
Definition quote_or (close : list number) (ndigits : nat) (literal : Q) : number :=
  match last close with
  | Some x => round x ndigits
  | None => Fin literal
  end.

(** A well-formed fuel observation: exactly the four keys, prices under
    the price keys, a datetime under [timestamp]. *)
Definition fuel_observation (d : dict) : Prop :=
  dom d = fuel_keys
  /\ (exists x, field_is d "jet_fuel" x)
  /\ (exists x, field_is d "brent_crude" x)
  /\ (exists x, field_is d "wti_crude" x)
  /\ has_timestamp d.

Definition currency_observation (d : dict) : Prop :=
  dom d = currency_keys
  /\ (exists x, field_is d "usd_inr" x)
  /\ (exists x, field_is d "eur_inr" x)
  /\ (exists x, field_is d "gbp_inr" x)
  /\ (exists x, field_is d "jpy_inr" x)
  /\ has_timestamp d.

(** The file takes the two rows of a cycle: it opens, it is writable and
    both tables exist. *)
Definition accepts_writes (d : Database) : bool :=
  reachable d && writable d
  && bool_decide (is_Some (fuel_prices d))
  && bool_decide (is_Some (currency_rates d)).

(** The file after the two rows were appended and committed. *)
Definition appended (d : Database) (f : FuelRow) (c : CurrencyRow) : Database :=
  mkDatabase (reachable d) (writable d)
             ((fun rows => rows ++ [f]) <$> fuel_prices d)
             ((fun rows => rows ++ [c]) <$> currency_rates d).


(** The order of the numbers as the specification reads it: NaN is
    comparable with nothing. *)
Definition lt (x y : number) : Prop :=
  match x, y with
  | Fin a, Fin b => (a < b)%Q
  | NInf, (Fin _ | PInf) | Fin _, PInf => True
  | _, _ => False
  end.

Definition le (x y : number) : Prop :=
  match x, y with
  | Fin a, Fin b => (a <= b)%Q
  | NInf, (Fin _ | PInf | NInf) | (Fin _ | PInf), PInf => True
  | _, _ => False
  end.

(** The keys [calculate_price_changes] writes for each series, each with
    the column it is computed from. *)
Definition fuel_columns : list (string * (FuelRow -> number)) :=
  [("jet_fuel_change", jet_fuel);
   ("brent_change", brent_crude);
   ("wti_change", wti_crude)].

Definition currency_columns : list (string * (CurrencyRow -> number)) :=
  [("usd_inr_change", usd_inr);
   ("eur_inr_change", eur_inr);
   ("gbp_inr_change", gbp_inr);
   ("jpy_inr_change", jpy_inr)].

(** A finite value equal to zero. *)
Definition is_zero (x : number) : Prop :=
  match x with
  | Fin q => (q == 0)%Q
  | _ => False
  end.

(** ** Sample worlds *)

(** A quote service answering from a table; any other symbol has no data. *)
Definition quotes (table : list (string * History)) (symbol : string) : History :=
  default (HistoryFrame [])
          ((list_to_map table : gmap string History) !! symbol).

Definition sample_clock (n : nat) : Z := 1700000000 + Z.of_nat n.

Definition sample_generator (n : nat) : Z := 2654435769 * Z.of_nat (S n).

(** Both benchmarks quoted, the exchange-rate service down. *)
Definition sample_env : Env :=
  mkEnv
    (quotes [("BZ=F", HistoryFrame [Fin 82.10; Fin 82.456]);
             ("CL=F", HistoryFrame [Fin 78.114]);
             ("USDINR=X", HistoryFrame [Fin 83.127]);
             ("EURINR=X", HistoryFrame [Fin 91.5]);
             ("GBPINR=X", HistoryFrame []);
             ("JPYINR=X", HistoryFrame [Fin 0.5612345])])
    (GetRaises ConnectionError)
    sample_clock sample_generator.

(** The exchange-rate service answers with the table of the specification. *)
Definition exchangerate_env : Env :=
  mkEnv
    (quotes [])
    (Response 200
       (Some (list_to_map
                [("INR", Fin 83.0); ("EUR", Fin 0.85); ("GBP", Fin 0.73);
                 ("JPY", Fin 110.0); ("USD", Fin 1)])))
    sample_clock sample_generator.

(** The exchange-rate service is down and Yahoo has no USD/INR data, while
    the three other pairs are quoted. *)
Definition usd_quote_missing_env : Env :=
  mkEnv
    (quotes [("USDINR=X", HistoryFrame []);
             ("EURINR=X", HistoryFrame [Fin 91.5]);
             ("GBPINR=X", HistoryFrame [Fin 106.25]);
             ("JPYINR=X", HistoryFrame [Fin 0.5612345])])
    (GetRaises ConnectionError)
    sample_clock sample_generator.

(** The exchange-rate service is down and the EUR/INR request raises,
    while the three other pairs are quoted. *)
Definition eur_request_raises_env : Env :=
  mkEnv
    (quotes [("USDINR=X", HistoryFrame [Fin 83.127]);
             ("EURINR=X", HistoryRaises ConnectionError);
             ("GBPINR=X", HistoryFrame [Fin 106.25]);
             ("JPYINR=X", HistoryFrame [Fin 0.5612345])])
    (GetRaises ConnectionError)
    sample_clock sample_generator.

Definition empty_database : Database :=
  mkDatabase true true (Some []) (Some []).

(** A file in which table [currency_rates] was never created. *)
Definition database_without_currency_table : Database :=
  mkDatabase true true (Some []) None.

(** Three fuel rows stored out of order and one currency row. *)
Definition sample_fuel_rows : list FuelRow :=
  [mkFuelRow 20 (Fin 2.50) (Fin 64.10) (Fin 60.20);
   mkFuelRow 30 (Fin 2.55) (Fin 65.00) (Fin 61.00);
   mkFuelRow 10 (Fin 2.40) (Fin 63.00) (Fin 59.00)].

Definition sample_currency_rows : list CurrencyRow :=
  [mkCurrencyRow 30 (Fin 88.50) (Fin 103.10) (Fin 118.20) (Fin 0.571)].

(** Two fuel rows, the older one with a jet-fuel price of zero. *)
Definition zero_previous_fuel_rows : list FuelRow :=
  [mkFuelRow 30 (Fin 2.55) (Fin 65.00) (Fin 61.00);
   mkFuelRow 20 (Fin 0) (Fin 64.10) (Fin 60.20)].

(** Two fuel rows, jet fuel going from 2.50 to 2.55, newest first. *)
Definition two_fuel_rows : list FuelRow :=
  [mkFuelRow 30 (Fin 2.55) (Fin 65.00) (Fin 61.00);
   mkFuelRow 20 (Fin 2.50) (Fin 64.10) (Fin 60.20)].


Definition initial_state (d : Database) : State := mkState 0 0 d 0 [].

(** ** Vocabulary of the further properties *)

(** What a fetcher does to the state besides logging and drawing random
    numbers: nothing to the file, no connection, and one reading of the
    clock, which is the timestamp of the observation [d]. *)
Definition fetched (env : Env) (s s' : State) (d : dict) : Prop :=
  db s' = db s
  /\ connections s' = connections s
  /\ clock_reads s' = S (clock_reads s)
  /\ d !! "timestamp" = Some (PyDatetime (clock env (clock_reads s))).

(** The futures source yields both benchmarks: neither request raises and
    both frames have rows. *)
Definition fuel_source_answers (env : Env) : bool :=
  match yf_history env "BZ=F", yf_history env "CL=F" with
  | HistoryFrame brent_data, HistoryFrame wti_data =>
      negb (bool_decide (brent_data = [])) && negb (bool_decide (wti_data = []))
  | _, _ => false
  end.

(** A request for one of the two benchmarks raises. *)
Definition fuel_request_raises (env : Env) : bool :=
  match yf_history env "BZ=F", yf_history env "CL=F" with
  | HistoryFrame _, HistoryFrame _ => false
  | _, _ => true
  end.

(** Method 1 ends in its handler: the request raises, or the service
    answers 200 with a body the method cannot use. *)
Definition exchangerate_raises (r : HttpResult) : bool :=
  match r with
  | GetRaises _ => true
  | Response status_code _ =>
      bool_decide (status_code = 200) && negb (exchangerate_answers r)
  end.

(** Method 2 returns rates: no request raises and USD/INR has rows. *)
Definition yahoo_answers (env : Env) : bool :=
  match yf_history env "USDINR=X", yf_history env "EURINR=X",
        yf_history env "GBPINR=X", yf_history env "JPYINR=X" with
  | HistoryFrame usd_data, HistoryFrame _, HistoryFrame _, HistoryFrame _ =>
      negb (bool_decide (usd_data = []))
  | _, _, _, _ => false
  end.

(** One of the four requests of method 2 raises. *)
Definition yahoo_raises (env : Env) : bool :=
  match yf_history env "USDINR=X", yf_history env "EURINR=X",
        yf_history env "GBPINR=X", yf_history env "JPYINR=X" with
  | HistoryFrame _, HistoryFrame _, HistoryFrame _, HistoryFrame _ => false
  | _, _, _, _ => true
  end.

(** What one call of [get_live_currency_rates] adds to the log. *)
Definition currency_log (env : Env) : list (level * string) :=
  (INFO, "Fetching live currency rates...") ::
  if exchangerate_answers (exchangerate_api env)
  then [(INFO, "Live currency rates collected")]
  else
    (if exchangerate_raises (exchangerate_api env)
     then [(WARNING, "ExchangeRate API failed")]
     else [])
    ++
    (if yahoo_answers env
     then [(INFO, "Live currency rates collected via Yahoo Finance")]
     else if yahoo_raises env
          then [(WARNING, "Yahoo Finance currency API failed")]
          else []).

(** The rates come from one of the two services, not from the generator. *)
Definition currency_source_answers (env : Env) : bool :=
  exchangerate_answers (exchangerate_api env) || yahoo_answers env.

(** The clock never goes back, respectively always advances. *)
Definition clock_monotone (env : Env) : Prop :=
  forall n m : nat, (n <= m)%nat -> clock env n ≤ clock env m.

Definition clock_advances (env : Env) : Prop :=
  forall n m : nat, (n < m)%nat -> clock env n < clock env m.

(** Rows in the order of their timestamps, oldest first. *)
Definition ascending {A : Type} (timestamp : A -> Z) (rows : list A) : Prop :=
  StronglySorted (fun x y => timestamp x ≤ timestamp y) rows.

(** Both tables, where they exist, hold their rows in the order of their
    timestamps, and no row is later than a reading of the clock still to
    come. *)
Definition chronological (env : Env) (s : State) : Prop :=
  (forall rows, fuel_prices (db s) = Some rows ->
     ascending fuel_timestamp rows
     /\ forall r n, r ∈ rows -> (clock_reads s <= n)%nat ->
          fuel_timestamp r ≤ clock env n)
  /\ (forall rows, currency_rates (db s) = Some rows ->
        ascending currency_timestamp rows
        /\ forall r n, r ∈ rows -> (clock_reads s <= n)%nat ->
             currency_timestamp r ≤ clock env n).


(** A file whose tables hold two rows each, in the order of their
    timestamps. *)
Definition ordered_fuel_rows : list FuelRow :=
  [mkFuelRow 20 (Fin 2.50) (Fin 64.10) (Fin 60.20);
   mkFuelRow 30 (Fin 2.55) (Fin 65.00) (Fin 61.00)].

Definition ordered_currency_rows : list CurrencyRow :=
  [mkCurrencyRow 20 (Fin 88.10) (Fin 103.00) (Fin 118.00) (Fin 0.572);
   mkCurrencyRow 30 (Fin 88.50) (Fin 103.10) (Fin 118.20) (Fin 0.571)].

Definition ordered_database : Database :=
  mkDatabase true true (Some ordered_fuel_rows) (Some ordered_currency_rows).

(** Brent is quoted, WTI has no data. *)
Definition wti_missing_env : Env :=
  mkEnv
    (quotes [("BZ=F", HistoryFrame [Fin 82.456]);
             ("CL=F", HistoryFrame [])])
    (GetRaises ConnectionError)
    sample_clock sample_generator.

(** The exchange-rate service answers 503 and Yahoo has no data at all:
    nothing raises. *)
Definition quiet_failure_env : Env :=
  mkEnv (quotes []) (Response 503 None) sample_clock sample_generator.

(** The exchange-rate service answers as in [exchangerate_env], with the
    Yahoo quotes of [sample_env] and another generator behind it. *)
Definition exchangerate_env_with_quotes : Env :=
  mkEnv (yf_history sample_env) (exchangerate_api exchangerate_env)
        sample_clock (fun n => 40503 * Z.of_nat n).

(** The exchange-rate service answers 200 with an empty rate table. *)
Definition empty_table_env : Env :=
  mkEnv (quotes []) (Response 200 (Some ∅)) sample_clock sample_generator.

(** ** Data freshness ([main], "Data Freshness") *)

(** In this part a timestamp counts microseconds.  The difference of two
    instants is a time difference; Python keeps it as days, seconds of the
    day (0 to 86399) and microseconds, and [total_seconds()] is the whole
    of it in seconds. *)
Definition timedelta_seconds (age : Z) : Z :=
  (age mod 86400000000) / 1000000.

Definition total_seconds (age : Z) : Q := age # 1000000.

Inductive Freshness : Type :=
  | DataIsFresh (minutes : Z)
  | DataIsMinutesOld (minutes : Z)
  | DataIsHoursOld (hours : Z).

(** The three-way message on [age = datetime.now() - latest_ts]. *)
Definition freshness_of_age (age : Z) : Freshness :=
  if Qltb (total_seconds age) 300
  then DataIsFresh (timedelta_seconds age / 60)
  else if Qltb (total_seconds age) 3600
       then DataIsMinutesOld (timedelta_seconds age / 60)
       else DataIsHoursOld (timedelta_seconds age / 3600).

(** [column.max()]: [None] stands for the NaT of an empty column. *)
Definition column_max (column : list Z) : option Z :=
  match column with
  | [] => None
  | t :: rest => Some (foldl Z.max t rest)
  end.

(** The freshness [main] reports from the two frames; [main] gets here
    with non-empty frames only. *)
Definition data_freshness (now : Z) (fuel_df : FuelFrame)
    (currency_df : CurrencyFrame) : option Freshness :=
  match column_max (fuel_timestamp <$> fuel_df),
        column_max (currency_timestamp <$> currency_df) with
  | Some fuel_max, Some currency_max =>
      let latest_ts := Z.max fuel_max currency_max in
      let age := now - latest_ts in
      Some (freshness_of_age age)
  | _, _ => None
  end.

(** The signals in the order the ladders give them as the change grows. *)
Definition hedge_rank (signal : FuelSignal) : nat :=
  match signal with
  | LOW_HEDGE => 0
  | MONITOR => 1
  | MODERATE_HEDGE => 2
  | HIGH_HEDGE => 3
  end.

Definition volatility_rank (signal : CurrencySignal) : nat :=
  match signal with
  | STABLE => 0
  | MODERATE_VOLATILITY => 1
  | HIGH_VOLATILITY => 2
  end.

(** * Properties *)

(** ** Properties of the numbers *)

Lemma Qltb_lt (x y : Q) : Qltb x y = true <-> (x < y)%Q.
Proof.
  unfold Qltb. rewrite Qlt_alt. destruct (x ?= y)%Q; split; congruence.
Qed.

Lemma Qltb_ge (x y : Q) : Qltb x y = false <-> (y <= x)%Q.
Proof.
  unfold Qltb. rewrite Qge_alt. destruct (x ?= y)%Q; split; congruence.
Qed.

Lemma Qis_zero_eq (x : Q) : Qis_zero x = true <-> (x == 0)%Q.
Proof.
  unfold Qis_zero. rewrite Qeq_alt. destruct (x ?= 0)%Q; split; congruence.
Qed.

Lemma Qis_zero_neq (x : Q) : Qis_zero x = false <-> ~ (x == 0)%Q.
Proof.
  rewrite <- Qis_zero_eq. destruct (Qis_zero x); split; congruence.
Qed.

Lemma round_half_even_mono (x y : Q) :
  (x <= y)%Q -> round_half_even x ≤ round_half_even y.
Proof.
  intros Hxy. unfold round_half_even.
  pose proof (Qfloor_resp_le _ _ Hxy) as Hf.
  destruct (Z.eq_dec (Qfloor x) (Qfloor y)) as [Heq | Hne].
  - rewrite Heq.
    destruct (Qcompare_spec (x - inject_Z (Qfloor y)) (1 # 2)) as [Hx | Hx | Hx];
      destruct (Qcompare_spec (y - inject_Z (Qfloor y)) (1 # 2)) as [Hy | Hy | Hy];
      try destruct (Z.even (Qfloor y)); try lia; exfalso; lra.
  - assert (Qfloor x + 1 ≤ Qfloor y) by lia.
    destruct (x - inject_Z (Qfloor x) ?= 1 # 2)%Q;
      destruct (y - inject_Z (Qfloor y) ?= 1 # 2)%Q;
      repeat match goal with
             | |- context [Z.even ?z] => destruct (Z.even z)
             end; lia.
Qed.

Lemma round_half_even_Z (k : Z) : round_half_even (inject_Z k) = k.
Proof.
  unfold round_half_even. rewrite Qfloor_Z.
  destruct (Qcompare_spec (inject_Z k - inject_Z k) (1 # 2)) as [H | H | H];
    [exfalso; lra | reflexivity | exfalso; lra].
Qed.

Lemma round_half_even_comp (x y : Q) :
  (x == y)%Q -> round_half_even x = round_half_even y.
Proof.
  intros H. apply Z.le_antisymm; apply round_half_even_mono; lra.
Qed.

Lemma Qmake_le (k1 k2 : Z) (p : positive) : k1 ≤ k2 -> (k1 # p <= k2 # p)%Q.
Proof. intros H. unfold Qle. simpl. nia. Qed.

(** Rounding is monotone on finite values. *)
Lemma round_mono (x y : Q) (n : nat) :
  (x <= y)%Q ->
  exists rx ry, round (Fin x) n = Fin rx /\ round (Fin y) n = Fin ry /\ (rx <= ry)%Q.
Proof.
  intros H. eexists _, _. split; [reflexivity | split; [reflexivity |]].
  apply Qmake_le, round_half_even_mono.
  apply Qmult_le_compat_r; [exact H |].
  change 0%Q with (inject_Z 0). rewrite <- Zle_Qle.
  apply Z.pow_nonneg. lia.
Qed.

(** A value between two bounds that rounding leaves alone stays between
    them when rounded. *)
Lemma round_within (lo hi q : Q) (n : nat) :
  eqv (round (Fin lo) n) (Fin lo) ->
  eqv (round (Fin hi) n) (Fin hi) ->
  (lo <= q)%Q -> (q <= hi)%Q ->
  within lo hi (round (Fin q) n).
Proof.
  intros Hlo Hhi H1 H2.
  destruct (round_mono lo q n H1) as (a & b & Ea & Eb & Hab).
  destruct (round_mono q hi n H2) as (b' & c & Eb' & Ec & Hbc).
  rewrite Ea in Hlo. rewrite Ec in Hhi. rewrite Eb in Eb'.
  injection Eb' as <-. rewrite Eb. simpl in *. split; lra.
Qed.

(** ** Running the monad *)

(** The field is looked up in a dict display and its rounded value is
    between bounds that rounding leaves alone. *)
Ltac rounded_field :=
  eexists; split;
    [by simplify_map_eq
    | apply round_within; [reflexivity | reflexivity | done | done]].

(** [H] puts a key among the columns of a series: one case per column. *)
Ltac by_column H :=
  repeat (apply elem_of_cons in H as [[= -> ->] | H]; [by simplify_map_eq |]);
  by apply elem_of_nil in H.

Lemma bind_Ok {A B : Type} (m : M A) (f : A -> M B) (s s' : State) (a : A) :
  m s = (Ok a, s') -> (m ≫= f) s = f a s'.
Proof. unfold mbind, M_bind. intros ->. reflexivity. Qed.

Lemma bind_Raise {A B : Type} (m : M A) (f : A -> M B) (s s' : State) (e : exn) :
  m s = (Raise e, s') -> (m ≫= f) s = (Raise e, s').
Proof. unfold mbind, M_bind. intros ->. reflexivity. Qed.

Lemma try_except_Ok {A : Type} (m : M A) (h : exn -> M A) (s s' : State) (a : A) :
  m s = (Ok a, s') -> try_except m h s = (Ok a, s').
Proof. unfold try_except. intros ->. reflexivity. Qed.

Lemma try_except_Raise {A : Type} (m : M A) (h : exn -> M A) (s s' : State) (e : exn) :
  m s = (Raise e, s') -> try_except m h s = h e s'.
Proof. unfold try_except. intros ->. reflexivity. Qed.

(** ** The fallback generators *)

Section Fallback.

Context (env : Env).

Lemma random_random_spec (s : State) :
  exists r, random_random env s = (Ok r, set_rng_reads (S (S (rng_reads s))) s)
            /\ (0 <= r)%Q /\ (r < 1)%Q.
Proof.
  eexists. split; [reflexivity |].
  set (x := genrand_uint32 env (rng_reads s) mod 2 ^ 32).
  set (y := genrand_uint32 env (S (rng_reads s)) mod 2 ^ 32).
  assert (0 ≤ x < 2 ^ 32) as Hx by (apply Z.mod_pos_bound; lia).
  assert (0 ≤ y < 2 ^ 32) as Hy by (apply Z.mod_pos_bound; lia).
  rewrite !Z.shiftr_div_pow2 by lia.
  assert (0 ≤ x / 2 ^ 5 < 2 ^ 27) as Ha
    by (split; [apply Z.div_pos; lia | apply Z.div_lt_upper_bound; lia]).
  assert (0 ≤ y / 2 ^ 6 < 2 ^ 26) as Hb
    by (split; [apply Z.div_pos; lia | apply Z.div_lt_upper_bound; lia]).
  unfold Qle, Qlt. simpl. lia.
Qed.

Lemma random_uniform_spec (a b : Q) (s : State) :
  (a <= b)%Q ->
  exists q, random_uniform env a b s
            = (Ok (Fin q), set_rng_reads (S (S (rng_reads s))) s)
            /\ (a <= q)%Q /\ (q <= b)%Q.
Proof.
  intros Hab. destruct (random_random_spec s) as (r & Hr & H0 & H1).
  exists (a + (b - a) * r)%Q. split.
  - unfold random_uniform. rewrite (bind_Ok _ _ _ _ _ Hr). reflexivity.
  - split; nra.
Qed.

Lemma only_read_refl (s : State) : only_read s s.
Proof. split; reflexivity. Qed.

Lemma only_read_trans (s1 s2 s3 : State) :
  only_read s1 s2 -> only_read s2 s3 -> only_read s1 s3.
Proof. intros [? ?] [? ?]. split; congruence. Qed.

Lemma fallback_fuel_run (s : State) :
  exists j b w t s',
    _get_fallback_fuel_prices env s
    = (Ok (dict_display
             [("jet_fuel", PyFloat (round (Fin j) 6));
              ("brent_crude", PyFloat (round (Fin b) 2));
              ("wti_crude", PyFloat (round (Fin w) 2));
              ("timestamp", PyDatetime t)]), s')
    /\ only_read s s'
    /\ ((2.3 <= j)%Q /\ (j <= 2.6)%Q)
    /\ ((60 <= b)%Q /\ (b <= 70)%Q)
    /\ ((55 <= w)%Q /\ (w <= 65)%Q).
Proof.
  destruct (random_uniform_spec 2.3 2.6 s) as (j & Ej & Hj); [lra |].
  destruct (random_uniform_spec 60 70 (set_rng_reads (S (S (rng_reads s))) s))
    as (b & Eb & Hb); [lra |].
  match type of Eb with _ = (_, ?s2) =>
    destruct (random_uniform_spec 55 65 s2) as (w & Ew & Hw); [lra |] end.
  exists j, b, w. eexists _, _. split; [| split; [| auto]].
  - unfold _get_fallback_fuel_prices.
    rewrite (bind_Ok _ _ _ _ _ Ej), (bind_Ok _ _ _ _ _ Eb),
      (bind_Ok _ _ _ _ _ Ew).
    reflexivity.
  - split; reflexivity.
Qed.

Lemma fallback_currency_run (s : State) :
  exists u e g j t s',
    _get_fallback_currency_rates env s
    = (Ok (dict_display
             [("usd_inr", PyFloat (round (Fin u) 2));
              ("eur_inr", PyFloat (round (Fin e) 2));
              ("gbp_inr", PyFloat (round (Fin g) 2));
              ("jpy_inr", PyFloat (round (Fin j) 6));
              ("timestamp", PyDatetime t)]), s')
    /\ only_read s s'
    /\ ((88 <= u)%Q /\ (u <= 90)%Q)
    /\ ((102 <= e)%Q /\ (e <= 105)%Q)
    /\ ((117 <= g)%Q /\ (g <= 120)%Q)
    /\ ((0.57 <= j)%Q /\ (j <= 0.58)%Q).
Proof.
  destruct (random_uniform_spec 88 90 s) as (u & Eu & Hu); [lra |].
  destruct (random_uniform_spec 102 105 (set_rng_reads (S (S (rng_reads s))) s))
    as (e & Ee & He); [lra |].
  match type of Ee with _ = (_, ?s2) =>
    destruct (random_uniform_spec 117 120 s2) as (g & Eg & Hg); [lra |] end.
  match type of Eg with _ = (_, ?s3) =>
    destruct (random_uniform_spec 0.57 0.58 s3) as (j & Ej & Hj); [lra |] end.
  exists u, e, g, j. eexists _, _. split; [| split; [| auto]].
  - unfold _get_fallback_currency_rates.
    rewrite (bind_Ok _ _ _ _ _ Eu), (bind_Ok _ _ _ _ _ Ee),
      (bind_Ok _ _ _ _ _ Eg), (bind_Ok _ _ _ _ _ Ej).
    reflexivity.
  - split; reflexivity.
Qed.

Lemma dom_fuel_display (a b c d : pyobj) :
  dom (dict_display
         [("jet_fuel", a); ("brent_crude", b); ("wti_crude", c);
          ("timestamp", d)]) = fuel_keys.
Proof.
  unfold dict_display, fuel_keys. simpl. rewrite !dom_insert_L, dom_empty_L.
  set_solver.
Qed.

Lemma dom_currency_display (a b c d e : pyobj) :
  dom (dict_display
         [("usd_inr", a); ("eur_inr", b); ("gbp_inr", c); ("jpy_inr", d);
          ("timestamp", e)]) = currency_keys.
Proof.
  unfold dict_display, currency_keys. simpl.
  rewrite !dom_insert_L, dom_empty_L. set_solver.
Qed.

(** What the fuel fallback returns is within its intervals. *)
Lemma fallback_fuel_bounds (s s' : State) (d : dict) :
  _get_fallback_fuel_prices env s = (Ok d, s') ->
  dom d = fuel_keys
  /\ field_within d "jet_fuel" 2.3 2.6
  /\ field_within d "brent_crude" 60 70
  /\ field_within d "wti_crude" 55 65
  /\ has_timestamp d.
Proof.
  destruct (fallback_fuel_run s)
    as (j & b & w & t & s1 & E & _ & [] & [] & []).
  rewrite E. intros [= <- <-]. split; [apply dom_fuel_display |].
  unfold field_within, has_timestamp, dict_display. simpl.
  repeat split.
  - rounded_field.
  - rounded_field.
  - rounded_field.
  - eexists. by simplify_map_eq.
Qed.

(** What the currency fallback returns is within its intervals. *)
Lemma fallback_currency_bounds (s s' : State) (d : dict) :
  _get_fallback_currency_rates env s = (Ok d, s') ->
  dom d = currency_keys
  /\ field_within d "usd_inr" 88 90
  /\ field_within d "eur_inr" 102 105
  /\ field_within d "gbp_inr" 117 120
  /\ field_within d "jpy_inr" 0.57 0.58
  /\ has_timestamp d.
Proof.
  destruct (fallback_currency_run s)
    as (u & e & g & j & t & s1 & E & _ & [] & [] & [] & []).
  rewrite E. intros [= <- <-]. split; [apply dom_currency_display |].
  unfold field_within, has_timestamp, dict_display. simpl.
  repeat split.
  - rounded_field.
  - rounded_field.
  - rounded_field.
  - rounded_field.
  - eexists. by simplify_map_eq.
Qed.

(** C6.  The two fallback generators return a dictionary from every state
    of the program, whatever the generator has produced before, and raise
    nothing; the dictionary has the three (four) price fields and the
    timestamp, and every price, rounded as it is stored, lies in its closed
    interval: jet_fuel in [2.3, 2.6], brent_crude in [60, 70], wti_crude in
    [55, 65]; usd_inr in [88, 90], eur_inr in [102, 105], gbp_inr in
    [117, 120], jpy_inr in [0.57, 0.58]. *)
Theorem fallback_generators_total_and_bounded (s : State) :
  (exists d s',
     _get_fallback_fuel_prices env s = (Ok d, s')
     /\ dom d = fuel_keys
     /\ field_within d "jet_fuel" 2.3 2.6
     /\ field_within d "brent_crude" 60 70
     /\ field_within d "wti_crude" 55 65
     /\ has_timestamp d)
  /\
  (exists d s',
     _get_fallback_currency_rates env s = (Ok d, s')
     /\ dom d = currency_keys
     /\ field_within d "usd_inr" 88 90
     /\ field_within d "eur_inr" 102 105
     /\ field_within d "gbp_inr" 117 120
     /\ field_within d "jpy_inr" 0.57 0.58
     /\ has_timestamp d).
Proof.
  split.
  - destruct (fallback_fuel_run s) as (j & b & w & t & s' & E & _).
    eexists _, _. split; [exact E |]. exact (fallback_fuel_bounds _ _ _ E).
  - destruct (fallback_currency_run s) as (u & e & g & j & t & s' & E & _).
    eexists _, _. split; [exact E |]. exact (fallback_currency_bounds _ _ _ E).
Qed.

End Fallback.

(** ** The fuel fetcher *)

Section Fuel.

Context (env : Env).

Lemma logger_run (l : level) (msg : string) (s : State) :
  logger l msg s = (Ok tt, set_log (log s ++ [(l, msg)]) s).
Proof. reflexivity. Qed.

Lemma ticker_history_frame (symbol : string) (close : list number) (s : State) :
  yf_history env symbol = HistoryFrame close ->
  ticker_history env symbol s = (Ok close, s).
Proof. unfold ticker_history. intros ->. reflexivity. Qed.

Lemma ticker_history_raises (symbol : string) (e : exn) (s : State) :
  yf_history env symbol = HistoryRaises e ->
  ticker_history env symbol s = (Raise e, s).
Proof. unfold ticker_history. intros ->. reflexivity. Qed.

Lemma iloc_last_Some (close : list number) (x : number) (s : State) :
  last close = Some x -> iloc_last close s = (Ok x, s).
Proof. unfold iloc_last. intros ->. reflexivity. Qed.

Lemma last_Some_nonempty {A : Type} (l : list A) (x : A) :
  last l = Some x -> bool_decide (l = []) = false.
Proof. intros H. apply bool_decide_eq_false_2. intros ->. discriminate. Qed.

(** The live path, on any two closing prices the frames end with. *)
Lemma get_live_fuel_prices_live (s : State) (brent_data wti_data : list number)
    (brent_price wti_price : number) :
  yf_history env "BZ=F" = HistoryFrame brent_data ->
  yf_history env "CL=F" = HistoryFrame wti_data ->
  last brent_data = Some brent_price ->
  last wti_data = Some wti_price ->
  exists t s',
    get_live_fuel_prices env s
    = (Ok (Some (dict_display
         [("jet_fuel",
           PyFloat (round (mul (np_div (add brent_price wti_price) (Fin 2))
                               (Fin 1.35)) 6));
          ("brent_crude", PyFloat (round brent_price 2));
          ("wti_crude", PyFloat (round wti_price 2));
          ("timestamp", PyDatetime t)])), s')
    /\ only_read s s'.
Proof.
  intros Hb Hw Lb Lw. eexists _, _. split.
  - unfold get_live_fuel_prices. apply try_except_Ok.
    erewrite bind_Ok by apply logger_run.
    erewrite bind_Ok by (apply ticker_history_frame; exact Hb).
    erewrite bind_Ok by (apply ticker_history_frame; exact Hw).
    rewrite (last_Some_nonempty _ _ Lb), (last_Some_nonempty _ _ Lw). simpl.
    erewrite bind_Ok by (apply iloc_last_Some; exact Lb).
    erewrite bind_Ok by (apply iloc_last_Some; exact Lw).
    reflexivity.
  - split; reflexivity.
Qed.


End Fuel.


(** ** The currency fetcher *)

Section Currency.

Context (env : Env).

Lemma datetime_now_run (s : State) :
  datetime_now env s
  = (Ok (PyDatetime (clock env (clock_reads s))),
     set_clock_reads (S (clock_reads s)) s).
Proof. reflexivity. Qed.

Lemma py_truediv_divides (x y : number) (s : State) :
  divides y = true -> py_truediv x y s = (Ok (np_div x y), s).
Proof.
  unfold py_truediv, divides. destruct y as [b | | |]; try reflexivity.
  destruct (Qis_zero b); [discriminate | reflexivity].
Qed.

Lemma py_truediv_zero (x y : number) (s : State) :
  divides y = false -> py_truediv x y s = (Raise ZeroDivisionError, s).
Proof.
  unfold py_truediv, divides. destruct y as [b | | |]; try discriminate.
  destruct (Qis_zero b); [reflexivity | discriminate].
Qed.

(** Method 1 on a table it can use. *)
Lemma exchangerate_method_answers (s : State) (rates : gmap string number) :
  exchangerate_api env = Response 200 (Some rates) ->
  divides (rates_get rates "EUR" 0.85) = true ->
  divides (rates_get rates "GBP" 0.73) = true ->
  divides (rates_get rates "JPY" 110.0) = true ->
  exists t s',
    exchangerate_method env s
    = (Ok (Some (dict_display
         [("usd_inr", PyFloat (round (rates_get rates "INR" 83.0) 2));
          ("eur_inr",
           PyFloat (round (np_div (rates_get rates "INR" 83.0)
                                  (rates_get rates "EUR" 0.85)) 2));
          ("gbp_inr",
           PyFloat (round (np_div (rates_get rates "INR" 83.0)
                                  (rates_get rates "GBP" 0.73)) 2));
          ("jpy_inr",
           PyFloat (round (np_div (rates_get rates "INR" 83.0)
                                  (rates_get rates "JPY" 110.0)) 6));
          ("timestamp", PyDatetime t)])), s')
    /\ only_read s s'.
Proof.
  intros Hr He Hg Hj. eexists _, _. split.
  - unfold exchangerate_method. apply try_except_Ok.
    unfold session_get. rewrite Hr.
    erewrite bind_Ok by reflexivity. simpl.
    erewrite bind_Ok by reflexivity.
    erewrite bind_Ok by (apply py_truediv_divides; exact He).
    erewrite bind_Ok by (apply py_truediv_divides; exact Hg).
    erewrite bind_Ok by (apply py_truediv_divides; exact Hj).
    reflexivity.
  - split; reflexivity.
Qed.

(** Method 1 never raises; when the service does not answer as above it
    returns nothing and control goes on to method 2. *)
Lemma exchangerate_method_fails (s : State) :
  exchangerate_answers (exchangerate_api env) = false ->
  exists s', exchangerate_method env s = (Ok None, s') /\ only_read s s'.
Proof.
  unfold exchangerate_answers, exchangerate_method, session_get.
  destruct (exchangerate_api env) as [e | status_code [rates |]]; intros H.
  - eexists. split; [| split]; reflexivity.
  - destruct (bool_decide (status_code = 200)) eqn:Hs.
    + erewrite try_except_Raise; [eexists; split; [reflexivity | split; reflexivity] |].
      erewrite bind_Ok by reflexivity. simpl. rewrite Hs.
      erewrite bind_Ok by reflexivity.
      simpl in H.
      destruct (divides (rates_get rates "EUR" 0.85)) eqn:He;
        [| erewrite bind_Raise by (apply py_truediv_zero; exact He); reflexivity].
      erewrite bind_Ok by (apply py_truediv_divides; exact He).
      destruct (divides (rates_get rates "GBP" 0.73)) eqn:Hg;
        [| erewrite bind_Raise by (apply py_truediv_zero; exact Hg); reflexivity].
      erewrite bind_Ok by (apply py_truediv_divides; exact Hg).
      destruct (divides (rates_get rates "JPY" 110.0)) eqn:Hj; [discriminate |].
      erewrite bind_Raise by (apply py_truediv_zero; exact Hj). reflexivity.
    + erewrite try_except_Ok; [eexists; split; [reflexivity | split; reflexivity] |].
      erewrite bind_Ok by reflexivity. simpl. rewrite Hs. reflexivity.
  - destruct (bool_decide (status_code = 200)) eqn:Hs.
    + erewrite try_except_Raise; [eexists; split; [reflexivity | split; reflexivity] |].
      erewrite bind_Ok by reflexivity. simpl. rewrite Hs. reflexivity.
    + erewrite try_except_Ok; [eexists; split; [reflexivity | split; reflexivity] |].
      erewrite bind_Ok by reflexivity. simpl. rewrite Hs. reflexivity.
Qed.

Lemma close_or_run (close : list number) (ndigits : nat) (literal : Q)
    (s : State) :
  close_or close ndigits literal s = (Ok (quote_or close ndigits literal), s).
Proof.
  unfold close_or, quote_or, iloc_last.
  destruct close as [| x close']; [reflexivity |].
  rewrite bool_decide_eq_false_2 by discriminate. simpl negb. cbv iota.
  destruct (last (x :: close')) eqn:E.
  - reflexivity.
  - apply last_None in E. discriminate.
Qed.

(** Method 2 when no request raises and USD/INR has data. *)
Lemma yahoo_method_answers (s : State)
    (usd_data eur_data gbp_data jpy_data : list number) (usd : number) :
  yf_history env "USDINR=X" = HistoryFrame usd_data ->
  yf_history env "EURINR=X" = HistoryFrame eur_data ->
  yf_history env "GBPINR=X" = HistoryFrame gbp_data ->
  yf_history env "JPYINR=X" = HistoryFrame jpy_data ->
  last usd_data = Some usd ->
  exists t s',
    yahoo_method env s
    = (Ok (Some (dict_display
         [("usd_inr", PyFloat (round usd 2));
          ("eur_inr", PyFloat (quote_or eur_data 2 90.0));
          ("gbp_inr", PyFloat (quote_or gbp_data 2 105.0));
          ("jpy_inr", PyFloat (quote_or jpy_data 6 0.55));
          ("timestamp", PyDatetime t)])), s')
    /\ only_read s s'.
Proof.
  intros Hu He Hg Hj Lu. eexists _, _. split.
  - unfold yahoo_method. apply try_except_Ok.
    erewrite bind_Ok by (apply ticker_history_frame; exact Hu).
    erewrite bind_Ok by (apply ticker_history_frame; exact He).
    erewrite bind_Ok by (apply ticker_history_frame; exact Hg).
    erewrite bind_Ok by (apply ticker_history_frame; exact Hj).
    rewrite (last_Some_nonempty _ _ Lu). change (negb false) with true.
    cbv iota.
    erewrite bind_Ok by (apply iloc_last_Some; exact Lu).
    erewrite bind_Ok by apply close_or_run.
    erewrite bind_Ok by apply close_or_run.
    erewrite bind_Ok by apply close_or_run.
    reflexivity.
  - split; reflexivity.
Qed.

(** Method 2 without USD/INR data returns nothing, whatever the other
    three pairs are. *)
Lemma yahoo_method_without_usd (s : State)
    (eur_data gbp_data jpy_data : list number) :
  yf_history env "USDINR=X" = HistoryFrame [] ->
  yf_history env "EURINR=X" = HistoryFrame eur_data ->
  yf_history env "GBPINR=X" = HistoryFrame gbp_data ->
  yf_history env "JPYINR=X" = HistoryFrame jpy_data ->
  yahoo_method env s = (Ok None, s).
Proof.
  intros Hu He Hg Hj. unfold yahoo_method. apply try_except_Ok.
  erewrite bind_Ok by (apply ticker_history_frame; exact Hu).
  erewrite bind_Ok by (apply ticker_history_frame; exact He).
  erewrite bind_Ok by (apply ticker_history_frame; exact Hg).
  erewrite bind_Ok by (apply ticker_history_frame; exact Hj).
  reflexivity.
Qed.

Lemma and_then_Some {A : Type} (block rest : M (option A)) (s s' : State) (v : A) :
  block s = (Ok (Some v), s') -> and_then block rest s = (Ok (Some v), s').
Proof. intros H. unfold and_then. rewrite (bind_Ok _ _ _ _ _ H). reflexivity. Qed.

Lemma and_then_None {A : Type} (block rest : M (option A)) (s s' : State) :
  block s = (Ok None, s') -> and_then block rest s = rest s'.
Proof. intros H. unfold and_then. rewrite (bind_Ok _ _ _ _ _ H). reflexivity. Qed.

(** What method 1 returns is what the function returns. *)
Lemma get_live_currency_rates_method1 (s s' : State) (d : dict) :
  exchangerate_method env
    (set_log (log s ++ [(INFO, "Fetching live currency rates...")]) s)
  = (Ok (Some d), s') ->
  get_live_currency_rates env s = (Ok (Some d), s').
Proof.
  intros H. unfold get_live_currency_rates. apply try_except_Ok.
  erewrite bind_Ok by apply logger_run.
  apply and_then_Some. exact H.
Qed.

(** When method 1 returns nothing, what method 2 returns is what the
    function returns. *)
Lemma get_live_currency_rates_method2 (s s1 s' : State) (d : dict) :
  exchangerate_method env
    (set_log (log s ++ [(INFO, "Fetching live currency rates...")]) s)
  = (Ok None, s1) ->
  yahoo_method env s1 = (Ok (Some d), s') ->
  get_live_currency_rates env s = (Ok (Some d), s').
Proof.
  intros H1 H2. unfold get_live_currency_rates. apply try_except_Ok.
  erewrite bind_Ok by apply logger_run.
  rewrite (and_then_None _ _ _ _ H1). apply and_then_Some. exact H2.
Qed.

(** When both methods return nothing, the fallback generator answers. *)
Lemma get_live_currency_rates_fallback (s s1 s2 : State) :
  exchangerate_method env
    (set_log (log s ++ [(INFO, "Fetching live currency rates...")]) s)
  = (Ok None, s1) ->
  yahoo_method env s1 = (Ok None, s2) ->
  exists d s',
    get_live_currency_rates env s = (Ok (Some d), s')
    /\ _get_fallback_currency_rates env s2 = (Ok d, s').
Proof.
  intros H1 H2.
  destruct (fallback_currency_run env s2)
    as (u & e & g & j & t & s' & E & _).
  eexists _, s'. split; [| exact E].
  unfold get_live_currency_rates. apply try_except_Ok.
  erewrite bind_Ok by apply logger_run.
  rewrite (and_then_None _ _ _ _ H1), (and_then_None _ _ _ _ H2).
  rewrite (bind_Ok _ _ _ _ _ E). reflexivity.
Qed.

(** C8.  When the exchange-rate service answers with a USD-based table
    holding the INR, EUR, GBP and JPY rates (the last three not zero), the
    observation returned has usd_inr = round(INR, 2),
    eur_inr = round(INR / EUR, 2), gbp_inr = round(INR / GBP, 2) and
    jpy_inr = round(INR / JPY, 6). *)
Theorem exchangerate_cross_rates (s : State) (rates : gmap string number)
    (inr eur gbp jpy : Q) :
  exchangerate_api env = Response 200 (Some rates) ->
  rates !! "INR" = Some (Fin inr) ->
  rates !! "EUR" = Some (Fin eur) ->
  rates !! "GBP" = Some (Fin gbp) ->
  rates !! "JPY" = Some (Fin jpy) ->
  ~ (eur == 0)%Q -> ~ (gbp == 0)%Q -> ~ (jpy == 0)%Q ->
  exists d s',
    get_live_currency_rates env s = (Ok (Some d), s')
    /\ field_is d "usd_inr" (round (Fin inr) 2)
    /\ field_is d "eur_inr" (round (Fin (inr / eur)) 2)
    /\ field_is d "gbp_inr" (round (Fin (inr / gbp)) 2)
    /\ field_is d "jpy_inr" (round (Fin (inr / jpy)) 6).
Proof.
  intros Hr Hi He Hg Hj Ze Zg Zj.
  apply Qis_zero_neq in Ze, Zg, Zj.
  destruct (exchangerate_method_answers
              (set_log (log s ++ [(INFO, "Fetching live currency rates...")]) s)
              rates Hr)
    as (t & s' & E & _).
  1-3: unfold rates_get; rewrite ?He, ?Hg, ?Hj; simpl;
       rewrite ?Ze, ?Zg, ?Zj; reflexivity.
  eexists _, _. split; [apply get_live_currency_rates_method1; exact E |].
  unfold rates_get. rewrite Hi, He, Hg, Hj. simpl default.
  unfold np_div. rewrite Ze, Zg, Zj.
  unfold field_is, dict_display. simpl foldl. by simplify_map_eq.
Qed.

(** C7 as amended.  When method 1 returns nothing, no Yahoo request raises
    and the USD/INR quote has data, the observation comes from Yahoo:
    usd_inr is the rounded USD/INR close, and each of eur_inr, gbp_inr and
    jpy_inr is, independently of the two others, its own rounded close when
    its quote has data and its literal (90.0, 105.0, 0.55) when it has
    none. *)
Theorem yahoo_pairs_default_independently (s : State)
    (usd_data eur_data gbp_data jpy_data : list number) (usd : number) :
  exchangerate_answers (exchangerate_api env) = false ->
  yf_history env "USDINR=X" = HistoryFrame usd_data ->
  yf_history env "EURINR=X" = HistoryFrame eur_data ->
  yf_history env "GBPINR=X" = HistoryFrame gbp_data ->
  yf_history env "JPYINR=X" = HistoryFrame jpy_data ->
  last usd_data = Some usd ->
  exists d s',
    get_live_currency_rates env s = (Ok (Some d), s')
    /\ field_is d "usd_inr" (round usd 2)
    /\ field_is d "eur_inr" (quote_or eur_data 2 90.0)
    /\ field_is d "gbp_inr" (quote_or gbp_data 2 105.0)
    /\ field_is d "jpy_inr" (quote_or jpy_data 6 0.55).
Proof.
  intros Ha Hu He Hg Hj Lu.
  destruct (exchangerate_method_fails
              (set_log (log s ++ [(INFO, "Fetching live currency rates...")]) s)
              Ha) as (s1 & E1 & _).
  destruct (yahoo_method_answers s1 _ _ _ _ _ Hu He Hg Hj Lu)
    as (t & s' & E2 & _).
  eexists _, _.
  split; [eapply get_live_currency_rates_method2; [exact E1 | exact E2] |].
  unfold field_is, dict_display. simpl foldl. by simplify_map_eq.
Qed.

End Currency.

(** The table of the specification: INR 83.0, EUR 0.85, GBP 0.73,
    JPY 110.0 give eur_inr = round(83.0 / 0.85, 2) = 97.65. *)
Lemma exchangerate_cross_rates_witness :
  exists d s',
    get_live_currency_rates exchangerate_env (initial_state empty_database)
    = (Ok (Some d), s')
    /\ field_is d "usd_inr" (Fin 83.00)
    /\ field_is d "eur_inr" (Fin 97.65)
    /\ field_is d "gbp_inr" (Fin 113.70)
    /\ field_is d "jpy_inr" (Fin 0.754545).
Proof.
  apply (exchangerate_cross_rates exchangerate_env
           (initial_state empty_database)
           (list_to_map
              [("INR", Fin 83.0); ("EUR", Fin 0.85); ("GBP", Fin 0.73);
               ("JPY", Fin 110.0); ("USD", Fin 1)])
           83.0 0.85 0.73 110.0);
    first [reflexivity | intros H; discriminate H].
Defined.

(** On the sample world GBP/INR has no data: it alone takes its literal. *)
Lemma yahoo_pairs_default_independently_witness :
  exists d s',
    get_live_currency_rates sample_env (initial_state empty_database)
    = (Ok (Some d), s')
    /\ field_is d "usd_inr" (Fin 83.13)
    /\ field_is d "eur_inr" (Fin 91.50)
    /\ field_is d "gbp_inr" (Fin 105.0)
    /\ field_is d "jpy_inr" (Fin 0.561234).
Proof.
  apply (yahoo_pairs_default_independently sample_env
           (initial_state empty_database)
           [Fin 83.127] [Fin 91.5] [] [Fin 0.5612345] (Fin 83.127));
    reflexivity.
Defined.

(** C7, counterexample.  The exchange-rate service is down and, of the four
    Yahoo quotes, only USD/INR has no data.  The observation returned is
    not Yahoo's: EUR/INR, GBP/INR and JPY/INR lose their live values
    (91.5, 106.25, 0.5612345) and all four rates are the fallback
    generator's, within its intervals.  Likewise when only the EUR/INR
    request raises: eur_inr is not the literal 90.0 and USD/INR loses its
    live value. *)
Lemma usd_quote_failure_abandons_yahoo :
  (exchangerate_answers (exchangerate_api usd_quote_missing_env) = false
   /\ yf_history usd_quote_missing_env "USDINR=X" = HistoryFrame []
   /\ yf_history usd_quote_missing_env "EURINR=X" = HistoryFrame [Fin 91.5]
   /\ yf_history usd_quote_missing_env "GBPINR=X" = HistoryFrame [Fin 106.25]
   /\ yf_history usd_quote_missing_env "JPYINR=X"
      = HistoryFrame [Fin 0.5612345]
   /\ exists d s',
        get_live_currency_rates usd_quote_missing_env
          (initial_state empty_database) = (Ok (Some d), s')
        /\ d !! "eur_inr" <> Some (PyFloat (round (Fin 91.5) 2))
        /\ d !! "gbp_inr" <> Some (PyFloat (round (Fin 106.25) 2))
        /\ d !! "jpy_inr" <> Some (PyFloat (round (Fin 0.5612345) 6))
        /\ field_within d "usd_inr" 88 90
        /\ field_within d "eur_inr" 102 105
        /\ field_within d "gbp_inr" 117 120
        /\ field_within d "jpy_inr" 0.57 0.58)
  /\
  (exchangerate_answers (exchangerate_api eur_request_raises_env) = false
   /\ yf_history eur_request_raises_env "USDINR=X" = HistoryFrame [Fin 83.127]
   /\ yf_history eur_request_raises_env "EURINR=X"
      = HistoryRaises ConnectionError
   /\ exists d s',
        get_live_currency_rates eur_request_raises_env
          (initial_state empty_database) = (Ok (Some d), s')
        /\ d !! "eur_inr" <> Some (PyFloat (Fin 90.0))
        /\ d !! "usd_inr" <> Some (PyFloat (round (Fin 83.127) 2))
        /\ field_within d "usd_inr" 88 90
        /\ field_within d "eur_inr" 102 105).
Proof.
  split.
  - do 5 (split; [reflexivity |]).
    destruct (get_live_currency_rates_fallback usd_quote_missing_env
                (initial_state empty_database) _ _ eq_refl eq_refl)
      as (d & s' & E & F).
    exists d, s'. split; [exact E |].
    destruct (fallback_currency_bounds usd_quote_missing_env _ _ _ F)
      as (_ & Hu & He & Hg & Hj & _).
    repeat split; try assumption.
    + destruct He as (x & -> & Hx). intros [= ->]. vm_compute in Hx.
      destruct Hx as [Hx _]. apply Hx. reflexivity.
    + destruct Hg as (x & -> & Hx). intros [= ->]. vm_compute in Hx.
      destruct Hx as [Hx _]. apply Hx. reflexivity.
    + destruct Hj as (x & -> & Hx). intros [= ->]. vm_compute in Hx.
      destruct Hx as [Hx _]. apply Hx. reflexivity.
  - do 3 (split; [reflexivity |]).
    destruct (get_live_currency_rates_fallback eur_request_raises_env
                (initial_state empty_database) _ _ eq_refl eq_refl)
      as (d & s' & E & F).
    exists d, s'. split; [exact E |].
    destruct (fallback_currency_bounds eur_request_raises_env _ _ _ F)
      as (_ & Hu & He & _).
    repeat split; try assumption.
    + destruct He as (x & -> & Hx). intros [= ->]. vm_compute in Hx.
      destruct Hx as [Hx _]. apply Hx. reflexivity.
    + destruct Hu as (x & -> & Hx). intros [= ->]. vm_compute in Hx.
      destruct Hx as [Hx _]. apply Hx. reflexivity.
Qed.

(** ** Every path of the fetchers returns an observation *)

Section Observations.

Context (env : Env).

Lemma field_within_is (d : dict) (key : string) (lo hi : Q) :
  field_within d key lo hi -> exists x, field_is d key x.
Proof. intros (x & H & _). exists x. exact H. Qed.

Lemma fuel_display_observation (j b w : number) (t : Z) :
  fuel_observation
    (dict_display
       [("jet_fuel", PyFloat j); ("brent_crude", PyFloat b);
        ("wti_crude", PyFloat w); ("timestamp", PyDatetime t)]).
Proof.
  split; [apply dom_fuel_display |].
  unfold field_is, has_timestamp, dict_display. simpl.
  repeat split; eexists; by simplify_map_eq.
Qed.

Lemma currency_display_observation (u e g j : number) (t : Z) :
  currency_observation
    (dict_display
       [("usd_inr", PyFloat u); ("eur_inr", PyFloat e);
        ("gbp_inr", PyFloat g); ("jpy_inr", PyFloat j);
        ("timestamp", PyDatetime t)]).
Proof.
  split; [apply dom_currency_display |].
  unfold field_is, has_timestamp, dict_display. simpl.
  repeat split; eexists; by simplify_map_eq.
Qed.

Lemma fallback_fuel_returned (s : State) :
  exists d s',
    (fallback ← _get_fallback_fuel_prices env; returned fallback) s
    = (Ok (Some d), s')
    /\ only_read s s' /\ fuel_observation d.
Proof.
  destruct (fallback_fuel_run env s) as (j & b & w & t & s' & E & R & _).
  eexists _, s'. rewrite (bind_Ok _ _ _ _ _ E).
  split; [reflexivity |]. split; [exact R |]. apply fuel_display_observation.
Qed.

Lemma fallback_currency_returned (s : State) :
  exists d s',
    (fallback ← _get_fallback_currency_rates env; returned fallback) s
    = (Ok (Some d), s')
    /\ only_read s s' /\ currency_observation d.
Proof.
  destruct (fallback_currency_run env s)
    as (u & e & g & j & t & s' & E & R & _).
  eexists _, s'. rewrite (bind_Ok _ _ _ _ _ E).
  split; [reflexivity |]. split; [exact R |].
  apply currency_display_observation.
Qed.

Lemma only_read_set_log (l : list (level * string)) (s : State) :
  only_read s (set_log l s).
Proof. split; reflexivity. Qed.

Lemma nonempty_last {A : Type} (l : list A) :
  bool_decide (l = []) = false -> exists x, last l = Some x.
Proof.
  intros H. apply bool_decide_eq_false_1 in H.
  destruct (last l) eqn:E; [eauto |]. apply last_None in E. contradiction.
Qed.

(** Whatever the futures source does, [get_live_fuel_prices] returns an
    observation. *)
Lemma get_live_fuel_prices_total (s : State) :
  exists d s',
    get_live_fuel_prices env s = (Ok (Some d), s')
    /\ only_read s s' /\ fuel_observation d.
Proof.
  set (s0 := set_log (log s ++ [(INFO, "Fetching live fuel prices...")]) s).
  set (sE := set_log (log s0 ++ [(ERROR, "Error fetching live fuel prices")]) s0).
  assert (exists d s',
             (logger ERROR "Error fetching live fuel prices";;
              fallback ← _get_fallback_fuel_prices env; returned fallback) s0
             = (Ok (Some d), s') /\ only_read s s' /\ fuel_observation d)
    as Handler.
  { destruct (fallback_fuel_returned sE) as (d & s' & E & R & O).
    exists d, s'. erewrite bind_Ok by apply logger_run.
    split; [exact E |]. split; [| exact O].
    eapply only_read_trans; [| exact R]. split; reflexivity. }
  unfold get_live_fuel_prices.
  destruct (yf_history env "BZ=F") as [e | brent_data] eqn:Hb.
  { destruct Handler as (d & s' & E & R & O). exists d, s'.
    split; [| auto]. erewrite try_except_Raise; [exact E |].
    erewrite bind_Ok by apply logger_run.
    erewrite bind_Raise by (apply ticker_history_raises; exact Hb).
    reflexivity. }
  destruct (yf_history env "CL=F") as [e | wti_data] eqn:Hw.
  { destruct Handler as (d & s' & E & R & O). exists d, s'.
    split; [| auto]. erewrite try_except_Raise; [exact E |].
    erewrite bind_Ok by apply logger_run.
    erewrite bind_Ok by (apply ticker_history_frame; exact Hb).
    erewrite bind_Raise by (apply ticker_history_raises; exact Hw).
    reflexivity. }
  clear Handler.
  destruct (negb (bool_decide (brent_data = []))
            && negb (bool_decide (wti_data = []))) eqn:Hne.
  - apply andb_prop in Hne as [H1 H2]. apply negb_true_iff in H1, H2.
    destruct (nonempty_last _ H1) as (x & Lx).
    destruct (nonempty_last _ H2) as (y & Ly).
    destruct (get_live_fuel_prices_live env s _ _ _ _ Hb Hw Lx Ly)
      as (t & s' & E & R).
    eexists _, _. split; [exact E |]. split; [exact R |].
    apply fuel_display_observation.
  - set (sW := set_log
                 (log s0 ++ [(WARNING,
                              "Could not fetch live fuel prices, using fallback")])
                 s0).
    destruct (fallback_fuel_returned sW) as (d & s' & E & R & O).
    exists d, s'. split; [| split; [| exact O]].
    + apply try_except_Ok.
      erewrite bind_Ok by apply logger_run.
      erewrite bind_Ok by (apply ticker_history_frame; exact Hb).
      erewrite bind_Ok by (apply ticker_history_frame; exact Hw).
      rewrite Hne.
      erewrite bind_Ok by apply logger_run. exact E.
    + eapply only_read_trans; [| exact R]. split; reflexivity.
Qed.

Lemma exchangerate_answers_true (r : HttpResult) :
  exchangerate_answers r = true ->
  exists rates,
    r = Response 200 (Some rates)
    /\ divides (rates_get rates "EUR" 0.85) = true
    /\ divides (rates_get rates "GBP" 0.73) = true
    /\ divides (rates_get rates "JPY" 110.0) = true.
Proof.
  destruct r as [e | status_code [rates |]]; simpl; try discriminate.
  intros H. apply andb_prop in H as [H Hj]. apply andb_prop in H as [H Hg].
  apply andb_prop in H as [Hs He]. apply bool_decide_eq_true_1 in Hs.
  subst status_code. exists rates. auto.
Qed.

(** Method 1 never raises, and what it returns is an observation. *)
Lemma exchangerate_method_total (s : State) :
  exists r s',
    exchangerate_method env s = (Ok r, s')
    /\ only_read s s'
    /\ match r with Some d => currency_observation d | None => True end.
Proof.
  destruct (exchangerate_answers (exchangerate_api env)) eqn:Ha.
  - apply exchangerate_answers_true in Ha as (rates & Hr & He & Hg & Hj).
    destruct (exchangerate_method_answers env s rates Hr He Hg Hj)
      as (t & s' & E & R).
    eexists _, _. split; [exact E |]. split; [exact R |].
    apply currency_display_observation.
  - destruct (exchangerate_method_fails env s Ha) as (s' & E & R).
    exists None, s'. auto.
Qed.

(** Method 2 never raises, and what it returns is an observation. *)
Lemma yahoo_method_total (s : State) :
  exists r s',
    yahoo_method env s = (Ok r, s')
    /\ only_read s s'
    /\ match r with Some d => currency_observation d | None => True end.
Proof.
  assert (forall (e : exn) s1, only_read s s1 ->
            exists r s',
              (logger WARNING "Yahoo Finance currency API failed";;
               @fall_through dict) s1 = (Ok r, s')
              /\ only_read s s'
              /\ match r with
                 | Some d => currency_observation d
                 | None => True
                 end) as Handler.
  { intros _ s1 R. exists None. eexists. split; [reflexivity |].
    split; [| exact I]. eapply only_read_trans; [exact R |].
    split; reflexivity. }
  unfold yahoo_method.
  destruct (yf_history env "USDINR=X") as [e | usd_data] eqn:Hu.
  { erewrite try_except_Raise;
      [apply (Handler e), only_read_refl |].
    erewrite bind_Raise by (apply ticker_history_raises; exact Hu).
    reflexivity. }
  destruct (yf_history env "EURINR=X") as [e | eur_data] eqn:He.
  { erewrite try_except_Raise;
      [apply (Handler e), only_read_refl |].
    erewrite bind_Ok by (apply ticker_history_frame; exact Hu).
    erewrite bind_Raise by (apply ticker_history_raises; exact He).
    reflexivity. }
  destruct (yf_history env "GBPINR=X") as [e | gbp_data] eqn:Hg.
  { erewrite try_except_Raise;
      [apply (Handler e), only_read_refl |].
    erewrite bind_Ok by (apply ticker_history_frame; exact Hu).
    erewrite bind_Ok by (apply ticker_history_frame; exact He).
    erewrite bind_Raise by (apply ticker_history_raises; exact Hg).
    reflexivity. }
  destruct (yf_history env "JPYINR=X") as [e | jpy_data] eqn:Hj.
  { erewrite try_except_Raise;
      [apply (Handler e), only_read_refl |].
    erewrite bind_Ok by (apply ticker_history_frame; exact Hu).
    erewrite bind_Ok by (apply ticker_history_frame; exact He).
    erewrite bind_Ok by (apply ticker_history_frame; exact Hg).
    erewrite bind_Raise by (apply ticker_history_raises; exact Hj).
    reflexivity. }
  clear Handler.
  destruct (bool_decide (usd_data = [])) eqn:Hne.
  - apply bool_decide_eq_true_1 in Hne. subst usd_data.
    exists None, s. split; [| split; [apply only_read_refl | exact I]].
    fold (yahoo_method env).
    apply (yahoo_method_without_usd env s _ _ _ Hu He Hg Hj).
  - destruct (nonempty_last _ Hne) as (usd & Lu).
    destruct (yahoo_method_answers env s _ _ _ _ _ Hu He Hg Hj Lu)
      as (t & s' & E & R).
    eexists _, _. split; [exact E |]. split; [exact R |].
    apply currency_display_observation.
Qed.

(** Whatever the two services do, [get_live_currency_rates] returns an
    observation. *)
Lemma get_live_currency_rates_total (s : State) :
  exists d s',
    get_live_currency_rates env s = (Ok (Some d), s')
    /\ only_read s s' /\ currency_observation d.
Proof.
  set (s0 := set_log (log s ++ [(INFO, "Fetching live currency rates...")]) s).
  assert (only_read s s0) as R0 by (split; reflexivity).
  destruct (exchangerate_method_total s0) as ([d1 |] & s1 & E1 & R1 & O1).
  { exists d1, s1. split; [apply get_live_currency_rates_method1; exact E1 |].
    split; [exact (only_read_trans _ _ _ R0 R1) | exact O1]. }
  destruct (yahoo_method_total s1) as ([d2 |] & s2 & E2 & R2 & O2).
  { exists d2, s2.
    split; [eapply get_live_currency_rates_method2; eassumption |].
    split; [| exact O2].
    exact (only_read_trans _ _ _ (only_read_trans _ _ _ R0 R1) R2). }
  destruct (get_live_currency_rates_fallback env s s1 s2 E1 E2)
    as (d & s' & E & F).
  destruct (fallback_currency_run env s2)
    as (u & e & g & j & t & s3 & E3 & R3 & _).
  rewrite E3 in F. injection F as <- <-.
  eexists _, _. split; [exact E |]. split.
  - exact (only_read_trans _ _ _
             (only_read_trans _ _ _ (only_read_trans _ _ _ R0 R1) R2) R3).
  - apply currency_display_observation.
Qed.

(** What the persistence writer reads is there to be read. *)
Lemma subscript_fuel_observation (d : dict) (key : string) :
  fuel_observation d -> key ∈ fuel_keys ->
  exists v, forall s : State, subscript (Some d) key s = (Ok v, s).
Proof.
  intros (Hd & _) Hk. rewrite <- Hd in Hk.
  apply elem_of_dom in Hk as (v & Hv). exists v. intros s.
  unfold subscript, getitem. rewrite Hv. reflexivity.
Qed.

Lemma subscript_currency_observation (d : dict) (key : string) :
  currency_observation d -> key ∈ currency_keys ->
  exists v, forall s : State, subscript (Some d) key s = (Ok v, s).
Proof.
  intros (Hd & _) Hk. rewrite <- Hd in Hk.
  apply elem_of_dom in Hk as (v & Hv). exists v. intros s.
  unfold subscript, getitem. rewrite Hv. reflexivity.
Qed.

(** C10.  From every state and whatever the services answer,
    [get_live_fuel_prices] and [get_live_currency_rates] return a
    dictionary, never [None] and never an exception; its keys are exactly
    those the persistence writer reads (jet_fuel, brent_crude, wti_crude,
    timestamp; usd_inr, eur_inr, gbp_inr, jpy_inr, timestamp), with a
    number under each price key and a datetime under timestamp, so every
    subscript of the writer finds its value. *)
Theorem fetchers_return_what_the_writer_reads (s : State) :
  (exists d s',
     get_live_fuel_prices env s = (Ok (Some d), s')
     /\ fuel_observation d
     /\ forall key, key ∈ fuel_keys ->
          exists v, forall st : State, subscript (Some d) key st = (Ok v, st))
  /\
  (exists d s',
     get_live_currency_rates env s = (Ok (Some d), s')
     /\ currency_observation d
     /\ forall key, key ∈ currency_keys ->
          exists v, forall st : State, subscript (Some d) key st = (Ok v, st)).
Proof.
  split.
  - destruct (get_live_fuel_prices_total s) as (d & s' & E & _ & O).
    exists d, s'. split; [exact E |]. split; [exact O |].
    intros key. apply subscript_fuel_observation, O.
  - destruct (get_live_currency_rates_total s) as (d & s' & E & _ & O).
    exists d, s'. split; [exact E |]. split; [exact O |].
    intros key. apply subscript_currency_observation, O.
Qed.

End Observations.

(** On the sample world each fetcher returns a dictionary in which the
    writer finds [jet_fuel], respectively [usd_inr]. *)
Lemma fetchers_return_what_the_writer_reads_witness :
  (exists d s' v,
     get_live_fuel_prices sample_env (initial_state empty_database)
     = (Ok (Some d), s')
     /\ subscript (Some d) "jet_fuel" s' = (Ok v, s'))
  /\
  (exists d s' v,
     get_live_currency_rates sample_env (initial_state empty_database)
     = (Ok (Some d), s')
     /\ subscript (Some d) "usd_inr" s' = (Ok v, s')).
Proof.
  destruct (fetchers_return_what_the_writer_reads sample_env
              (initial_state empty_database))
    as [(d1 & s1 & E1 & _ & K1) (d2 & s2 & E2 & _ & K2)].
  split.
  - destruct (K1 "jet_fuel") as (v & Hv);
      [clear; set_solver |].
    exists d1, s1, v. split; [exact E1 | apply Hv].
  - destruct (K2 "usd_inr") as (v & Hv);
      [clear; set_solver |].
    exists d2, s2, v. split; [exact E2 | apply Hv].
Defined.

(** ** The persistence writer and the collection cycle *)

Section Cycle.

Context (env : Env).

(** The writer on two observations: it opens one connection; when the file
    takes the rows they are appended and committed, otherwise the exception
    is logged, the file is as before, and in both cases the writer returns
    normally. *)
Lemma store_data_in_database_run (fuel currency : dict) (s : State)
    (t : Z) (j b w : number) (t' : Z) (u e g y : number) :
  fuel !! "timestamp" = Some (PyDatetime t) ->
  fuel !! "jet_fuel" = Some (PyFloat j) ->
  fuel !! "brent_crude" = Some (PyFloat b) ->
  fuel !! "wti_crude" = Some (PyFloat w) ->
  currency !! "timestamp" = Some (PyDatetime t') ->
  currency !! "usd_inr" = Some (PyFloat u) ->
  currency !! "eur_inr" = Some (PyFloat e) ->
  currency !! "gbp_inr" = Some (PyFloat g) ->
  currency !! "jpy_inr" = Some (PyFloat y) ->
  store_data_in_database (Some fuel) (Some currency) s
  = (Ok tt,
     if accepts_writes (db s)
     then set_log (log s ++ [(INFO, "Data stored in database successfully")])
            (set_db (appended (db s) (mkFuelRow t j b w)
                              (mkCurrencyRow t' u e g y))
               (set_connections (S (connections s)) s))
     else set_log (log s ++ [(ERROR, "Error storing data in database")])
            (set_connections (S (connections s)) s)).
Proof.
  intros Ft Fj Fb Fw Ct Cu Ce Cg Cy.
  unfold store_data_in_database, try_except, mbind, M_bind, sqlite3_connect,
    open_database, subscript, getitem.
  destruct s as [cr rr [r wr fp cp] n l].
  rewrite Ft, Fj, Fb, Fw, Ct, Cu, Ce, Cg, Cy.
  destruct r, wr, fp as [frows |], cp as [crows |]; reflexivity.
Qed.

Lemma print_report_run (fuel currency : dict) (s : State)
    (j b w u e g y : number) :
  fuel !! "jet_fuel" = Some (PyFloat j) ->
  fuel !! "brent_crude" = Some (PyFloat b) ->
  fuel !! "wti_crude" = Some (PyFloat w) ->
  currency !! "usd_inr" = Some (PyFloat u) ->
  currency !! "eur_inr" = Some (PyFloat e) ->
  currency !! "gbp_inr" = Some (PyFloat g) ->
  currency !! "jpy_inr" = Some (PyFloat y) ->
  print_report env (Some fuel) (Some currency) s
  = (Ok tt, set_clock_reads (S (clock_reads s)) s).
Proof.
  intros Fj Fb Fw Cu Ce Cg Cy.
  unfold print_report, mbind, M_bind, datetime_now, subscript, getitem.
  rewrite Fj, Fb, Fw, Cu, Ce, Cg, Cy. reflexivity.
Qed.

Lemma truthy_fuel_observation (d : dict) :
  fuel_observation d -> truthy (Some d) = true.
Proof.
  intros (Hd & _). unfold truthy. apply negb_true_iff, bool_decide_eq_false_2.
  intros ->. rewrite dom_empty_L in Hd. unfold fuel_keys in Hd. set_solver.
Qed.

Lemma truthy_currency_observation (d : dict) :
  currency_observation d -> truthy (Some d) = true.
Proof.
  intros (Hd & _). unfold truthy. apply negb_true_iff, bool_decide_eq_false_2.
  intros ->. rewrite dom_empty_L in Hd. unfold currency_keys in Hd. set_solver.
Qed.

(** One cycle, from any state and whatever the services answer: two
    observations are fetched, the writer is called once, and the cycle
    returns [True] whether or not the rows reached the file. *)
Lemma collect_and_store_realtime_data_run (s : State) :
  exists (frow : FuelRow) (crow : CurrencyRow) (s' : State),
    collect_and_store_realtime_data env s = (Ok true, s')
    /\ connections s' = S (connections s)
    /\ (if accepts_writes (db s)
        then db s' = appended (db s) frow crow
             /\ last (log s')
                = Some (INFO, "Data stored in database successfully")
        else db s' = db s
             /\ last (log s')
                = Some (ERROR, "Error storing data in database")).
Proof.
  set (s0 := set_log (log s ++ [(INFO, "Starting real-time data collection...")]) s).
  destruct (get_live_fuel_prices_total env s0) as (fuel & s1 & E1 & [D1 N1] & O1).
  destruct (get_live_currency_rates_total env s1)
    as (currency & s2 & E2 & [D2 N2] & O2).
  pose proof (truthy_fuel_observation _ O1) as T1.
  pose proof (truthy_currency_observation _ O2) as T2.
  destruct O1 as (_ & (j & Fj) & (b & Fb) & (w & Fw) & (t & Ft)).
  destruct O2 as (_ & (u & Cu) & (e & Ce) & (g & Cg) & (y & Cy) & (t' & Ct)).
  pose proof (store_data_in_database_run fuel currency s2 t j b w t' u e g y
                Ft Fj Fb Fw Ct Cu Ce Cg Cy) as E3.
  assert (db s2 = db s) as D by (rewrite D2, D1; reflexivity).
  assert (connections s2 = connections s) as N by (rewrite N2, N1; reflexivity).
  exists (mkFuelRow t j b w), (mkCurrencyRow t' u e g y). eexists. split.
  - unfold collect_and_store_realtime_data. apply try_except_Ok.
    erewrite bind_Ok by apply logger_run.
    erewrite bind_Ok by exact E1.
    erewrite bind_Ok by exact E2.
    rewrite T1, T2. change (true && true) with true. cbv iota.
    erewrite bind_Ok by exact E3.
    erewrite bind_Ok by (eapply print_report_run; eassumption).
    reflexivity.
  - rewrite <- D, <- N. destruct (accepts_writes (db s2)); simpl;
      rewrite last_snoc; auto.
Qed.

(** C1 as amended.  When the file does not take the rows (it cannot be
    opened or written, or a table is missing), the writer logs the error
    and returns; the cycle still returns [True].  The file is left as it
    was, one connection was opened and no more, and the last thing logged
    is the writer's error. *)
Theorem failed_write_is_logged_and_cycle_reports_success (s : State) :
  accepts_writes (db s) = false ->
  exists s',
    collect_and_store_realtime_data env s = (Ok true, s')
    /\ db s' = db s
    /\ connections s' = S (connections s)
    /\ last (log s') = Some (ERROR, "Error storing data in database").
Proof.
  intros H.
  destruct (collect_and_store_realtime_data_run s) as (frow & crow & s' & E & N & W).
  rewrite H in W. destruct W as [D L]. exists s'. auto.
Qed.

End Cycle.

(** The sample world with a file that lacks table [currency_rates]. *)
Lemma failed_write_is_logged_and_cycle_reports_success_witness :
  exists s',
    collect_and_store_realtime_data sample_env
      (initial_state database_without_currency_table) = (Ok true, s')
    /\ db s' = database_without_currency_table
    /\ connections s' = 1%nat
    /\ last (log s') = Some (ERROR, "Error storing data in database").
Proof.
  apply (failed_write_is_logged_and_cycle_reports_success sample_env
           (initial_state database_without_currency_table)).
  reflexivity.
Defined.

(** C1, counterexample.  Table [currency_rates] is missing, so the second
    insert is rejected; the cycle returns [True], not [False], and nothing
    was written. *)
Lemma rejected_insert_reported_as_success :
  accepts_writes database_without_currency_table = false
  /\ exists s',
       collect_and_store_realtime_data sample_env
         (initial_state database_without_currency_table) = (Ok true, s')
       /\ db s' = database_without_currency_table.
Proof.
  split; [reflexivity |]. eexists. split; vm_compute; reflexivity.
Qed.

(** ** The reader *)

#[local] Instance newer_fuel_total : Total newer_fuel.
Proof. intros x y. unfold newer_fuel. lia. Qed.

#[local] Instance newer_fuel_trans : Transitive newer_fuel.
Proof. intros x y z. unfold newer_fuel. lia. Qed.

#[local] Instance newer_currency_total : Total newer_currency.
Proof. intros x y. unfold newer_currency. lia. Qed.

#[local] Instance newer_currency_trans : Transitive newer_currency.
Proof. intros x y z. unfold newer_currency. lia. Qed.







(** ** The change calculator *)

Lemma pct_change_finite (latest previous : Q) :
  ~ (previous == 0)%Q ->
  pct_change (Fin latest) (Fin previous)
  = Fin ((latest - previous) / previous * 100).
Proof.
  intros H. apply Qis_zero_neq in H.
  unfold pct_change, sub, np_div. simpl. rewrite H. reflexivity.
Qed.

(** With a previous value of zero the quotient is an infinity or NaN. *)
Lemma pct_change_zero_previous (latest previous : number) :
  is_zero previous -> is_finite (pct_change latest previous) = false.
Proof.
  destruct previous as [p | | |]; simpl; try contradiction.
  intros H. apply Qis_zero_eq in H.
  unfold pct_change, sub, np_div.
  destruct latest as [l | | |]; simpl; rewrite ?H; try reflexivity.
  - destruct (Qis_zero (l + - p)); [reflexivity |].
    destruct (Qltb (l + - p) 0); reflexivity.
  - destruct (Qltb p 0); reflexivity.
  - destruct (Qltb p 0); reflexivity.
Qed.

Lemma calculate_price_changes_empty (fuel_df : FuelFrame)
    (currency_df : CurrencyFrame) :
  fuel_df = [] \/ currency_df = [] ->
  calculate_price_changes fuel_df currency_df = Ok ∅.
Proof.
  intros H. unfold calculate_price_changes.
  destruct H as [-> | ->]; [reflexivity |].
  destruct fuel_df; reflexivity.
Qed.

Lemma calculate_price_changes_one_one (f : FuelRow) (c : CurrencyRow) :
  calculate_price_changes [f] [c] = Ok ∅.
Proof. reflexivity. Qed.

Lemma calculate_price_changes_two_one (lf pf : FuelRow) (rf : FuelFrame)
    (c : CurrencyRow) :
  calculate_price_changes (lf :: pf :: rf) [c]
  = Ok (<["wti_change" := pct_change (wti_crude lf) (wti_crude pf)]> (
        <["brent_change" := pct_change (brent_crude lf) (brent_crude pf)]> (
        <["jet_fuel_change" := pct_change (jet_fuel lf) (jet_fuel pf)]> ∅))).
Proof.
  unfold calculate_price_changes. simpl.
  rewrite ?bool_decide_eq_true_2 by lia. reflexivity.
Qed.

Lemma calculate_price_changes_one_two (f : FuelRow) (lc pc : CurrencyRow)
    (rc : CurrencyFrame) :
  calculate_price_changes [f] (lc :: pc :: rc)
  = Ok (<["jpy_inr_change" := pct_change (jpy_inr lc) (jpy_inr pc)]> (
        <["gbp_inr_change" := pct_change (gbp_inr lc) (gbp_inr pc)]> (
        <["eur_inr_change" := pct_change (eur_inr lc) (eur_inr pc)]> (
        <["usd_inr_change" := pct_change (usd_inr lc) (usd_inr pc)]> ∅)))).
Proof.
  unfold calculate_price_changes. simpl.
  rewrite ?bool_decide_eq_true_2 by lia. reflexivity.
Qed.

Lemma calculate_price_changes_two_two (lf pf : FuelRow) (rf : FuelFrame)
    (lc pc : CurrencyRow) (rc : CurrencyFrame) :
  calculate_price_changes (lf :: pf :: rf) (lc :: pc :: rc)
  = Ok (<["jpy_inr_change" := pct_change (jpy_inr lc) (jpy_inr pc)]> (
        <["gbp_inr_change" := pct_change (gbp_inr lc) (gbp_inr pc)]> (
        <["eur_inr_change" := pct_change (eur_inr lc) (eur_inr pc)]> (
        <["usd_inr_change" := pct_change (usd_inr lc) (usd_inr pc)]> (
        <["wti_change" := pct_change (wti_crude lf) (wti_crude pf)]> (
        <["brent_change" := pct_change (brent_crude lf) (brent_crude pf)]> (
        <["jet_fuel_change" := pct_change (jet_fuel lf) (jet_fuel pf)]> ∅))))))).
Proof.
  unfold calculate_price_changes. simpl.
  rewrite ?bool_decide_eq_true_2 by lia. reflexivity.
Qed.

Lemma changes_of_fuel (lf pf : FuelRow) (rf : FuelFrame)
    (currency_df : CurrencyFrame) :
  currency_df <> [] ->
  exists changes,
    calculate_price_changes (lf :: pf :: rf) currency_df = Ok changes
    /\ forall key col, (key, col) ∈ fuel_columns ->
         changes !! key = Some (pct_change (col lf) (col pf)).
Proof.
  intros Hc. destruct currency_df as [| lc [| pc rc]]; [contradiction | |].
  - eexists. split; [apply calculate_price_changes_two_one |].
    intros key col H. unfold fuel_columns in H.
    by_column H.
  - eexists. split; [apply calculate_price_changes_two_two |].
    intros key col H. unfold fuel_columns in H.
    by_column H.
Qed.

Lemma changes_of_currency (fuel_df : FuelFrame) (lc pc : CurrencyRow)
    (rc : CurrencyFrame) :
  fuel_df <> [] ->
  exists changes,
    calculate_price_changes fuel_df (lc :: pc :: rc) = Ok changes
    /\ forall key col, (key, col) ∈ currency_columns ->
         changes !! key = Some (pct_change (col lc) (col pc)).
Proof.
  intros Hf. destruct fuel_df as [| lf [| pf rf]]; [contradiction | |].
  - eexists. split; [apply calculate_price_changes_one_two |].
    intros key col H. unfold currency_columns in H.
    by_column H.
  - eexists. split; [apply calculate_price_changes_two_two |].
    intros key col H. unfold currency_columns in H.
    by_column H.
Qed.

(** A fuel series of one row contributes none of its keys. *)
Lemma no_changes_of_one_fuel_row (f : FuelRow) (currency_df : CurrencyFrame) :
  exists changes,
    calculate_price_changes [f] currency_df = Ok changes
    /\ forall key col, (key, col) ∈ fuel_columns -> changes !! key = None.
Proof.
  destruct currency_df as [| lc [| pc rc]].
  - exists ∅. split; [reflexivity |]. intros. apply lookup_empty.
  - exists ∅. split; [reflexivity |]. intros. apply lookup_empty.
  - eexists. split; [apply calculate_price_changes_one_two |].
    intros key col H. unfold fuel_columns in H.
    by_column H.
Qed.

Lemma no_changes_of_one_currency_row (fuel_df : FuelFrame) (c : CurrencyRow) :
  exists changes,
    calculate_price_changes fuel_df [c] = Ok changes
    /\ forall key col, (key, col) ∈ currency_columns -> changes !! key = None.
Proof.
  destruct fuel_df as [| lf [| pf rf]].
  - exists ∅. split; [reflexivity |]. intros. apply lookup_empty.
  - exists ∅. split; [reflexivity |]. intros. apply lookup_empty.
  - eexists. split; [apply calculate_price_changes_two_one |].
    intros key col H. unfold currency_columns in H.
    by_column H.
Qed.

(** The mapping [calculate_price_changes] builds: it never raises; when
    either frame is empty the mapping is empty; when both have rows, each
    series has all its keys (from its two newest rows) or none of them (it
    has one row only). *)
Lemma calculate_price_changes_spec (fuel_df : FuelFrame)
    (currency_df : CurrencyFrame) :
  exists changes,
    calculate_price_changes fuel_df currency_df = Ok changes
    /\ (fuel_df = [] \/ currency_df = [] -> changes = ∅)
    /\ (fuel_df <> [] -> currency_df <> [] ->
        (forall key col, (key, col) ∈ fuel_columns ->
           changes !! key
           = match fuel_df with
             | latest :: previous :: _ =>
                 Some (pct_change (col latest) (col previous))
             | _ => None
             end)
        /\ (forall key col, (key, col) ∈ currency_columns ->
              changes !! key
              = match currency_df with
                | latest :: previous :: _ =>
                    Some (pct_change (col latest) (col previous))
                | _ => None
                end)).
Proof.
  destruct fuel_df as [| lf [| pf rf]].
  { exists ∅. split; [reflexivity |]. split; [reflexivity |]. contradiction. }
  - destruct (no_changes_of_one_fuel_row lf currency_df) as (changes & E & Hf).
    exists changes. split; [exact E |]. split.
    { intros [H | ->]; [discriminate |].
      rewrite calculate_price_changes_empty in E by (right; reflexivity).
      injection E as <-. reflexivity. }
    intros _ Hc. split; [exact Hf |].
    destruct currency_df as [| lc [| pc rc]]; [contradiction | |].
    + destruct (no_changes_of_one_currency_row [lf] lc) as (ch & E' & Hc').
      rewrite E' in E. injection E as ->. exact Hc'.
    + destruct (changes_of_currency [lf] lc pc rc) as (ch & E' & Hc');
        [discriminate |].
      rewrite E' in E. injection E as ->. exact Hc'.
  - destruct currency_df as [| lc [| pc rc]].
    { exists ∅. split; [reflexivity |]. split; [reflexivity |]. contradiction. }
    + destruct (changes_of_fuel lf pf rf [lc]) as (changes & E & Hf);
        [discriminate |].
      exists changes. split; [exact E |].
      split; [intros [H | H]; discriminate |]. intros _ _.
      split; [exact Hf |].
      destruct (no_changes_of_one_currency_row (lf :: pf :: rf) lc)
        as (ch & E' & Hc').
      rewrite E' in E. injection E as ->. exact Hc'.
    + destruct (changes_of_fuel lf pf rf (lc :: pc :: rc)) as (changes & E & Hf);
        [discriminate |].
      exists changes. split; [exact E |].
      split; [intros [H | H]; discriminate |]. intros _ _.
      split; [exact Hf |].
      destruct (changes_of_currency (lf :: pf :: rf) lc pc rc)
        as (ch & E' & Hc'); [discriminate |].
      rewrite E' in E. injection E as ->. exact Hc'.
Qed.

(** C3 as amended.  [calculate_price_changes] never raises.  When either
    frame is empty the mapping is empty.  When both have rows, each series
    is treated on its own: with a single row none of its keys is in the
    mapping, with two rows or more every one of its keys is, holding
    (latest - previous) / previous * 100 of its column.  A previous value of
    zero does not take the key away: its entry is then an infinity or
    NaN. *)
Theorem change_calculator_keys (fuel_df : FuelFrame) (currency_df : CurrencyFrame) :
  exists changes,
    calculate_price_changes fuel_df currency_df = Ok changes
    /\ (fuel_df = [] \/ currency_df = [] -> changes = ∅)
    /\ (fuel_df <> [] -> currency_df <> [] ->
        (forall key col, (key, col) ∈ fuel_columns ->
           match fuel_df with
           | latest :: previous :: _ =>
               changes !! key = Some (pct_change (col latest) (col previous))
               /\ (is_zero (col previous) ->
                   is_finite (pct_change (col latest) (col previous)) = false)
           | _ => changes !! key = None
           end)
        /\ (forall key col, (key, col) ∈ currency_columns ->
              match currency_df with
              | latest :: previous :: _ =>
                  changes !! key = Some (pct_change (col latest) (col previous))
                  /\ (is_zero (col previous) ->
                      is_finite (pct_change (col latest) (col previous)) = false)
              | _ => changes !! key = None
              end)).
Proof.
  destruct (calculate_price_changes_spec fuel_df currency_df)
    as (changes & E & He & H).
  exists changes. split; [exact E |]. split; [exact He |].
  intros Nf Nc. destruct (H Nf Nc) as [Hf Hc]. split.
  - intros key col Hk. specialize (Hf key col Hk).
    destruct fuel_df as [| lf [| pf rf]]; try exact Hf.
    split; [exact Hf | apply pct_change_zero_previous].
  - intros key col Hk. specialize (Hc key col Hk).
    destruct currency_df as [| lc [| pc rc]]; try exact Hc.
    split; [exact Hc | apply pct_change_zero_previous].
Qed.

(** On the sample frames, three fuel rows and one currency row: the fuel
    keys are there and the currency keys are not. *)
Lemma change_calculator_keys_witness :
  exists changes,
    calculate_price_changes
      (take 100 (merge_sort newer_fuel sample_fuel_rows))
      sample_currency_rows = Ok changes
    /\ changes !! "jet_fuel_change"
       = Some (pct_change (Fin 2.55) (Fin 2.50))
    /\ changes !! "usd_inr_change" = None.
Proof.
  destruct (change_calculator_keys
              (take 100 (merge_sort newer_fuel sample_fuel_rows))
              sample_currency_rows) as (changes & E & _ & H).
  destruct H as [Hf Hc]; [discriminate | discriminate |].
  exists changes. split; [exact E |]. split.
  - apply (Hf "jet_fuel_change" jet_fuel). constructor.
  - apply (Hc "usd_inr_change" usd_inr). constructor.
Defined.

(** C3, counterexample.  Two fuel rows whose older jet-fuel price is zero:
    the key jet_fuel_change is in the mapping, and holds an infinity.  And
    two fuel rows with an empty currency frame: the mapping is empty, the
    three fuel keys are not produced. *)
Lemma zero_previous_key_is_present :
  (exists changes,
     calculate_price_changes zero_previous_fuel_rows sample_currency_rows
     = Ok changes
     /\ changes !! "jet_fuel_change" = Some PInf)
  /\ (exists changes,
        calculate_price_changes two_fuel_rows [] = Ok changes
        /\ (2 <= length two_fuel_rows)%nat
        /\ changes !! "jet_fuel_change" = None
        /\ changes !! "brent_change" = None
        /\ changes !! "wti_change" = None).
Proof.
  split.
  - eexists. split; [vm_compute; reflexivity | reflexivity].
  - eexists. split; [reflexivity |]. repeat split. simpl. lia.
Qed.



(** ** The signal ladders *)

Lemma ltb_lt (x y : number) : ltb x y = true <-> lt x y.
Proof.
  destruct x as [a | | |], y as [b | | |]; simpl;
    try apply Qltb_lt; split; try done.
Qed.

Lemma gtb_lt (x y : number) : gtb x y = true <-> lt y x.
Proof. apply ltb_lt. Qed.

Lemma ltb_not_lt (x y : number) : ltb x y = false <-> ~ lt x y.
Proof.
  rewrite <- ltb_lt. destruct (ltb x y); split; congruence.
Qed.

Lemma le_not_lt (x y : number) : le x y -> ~ lt y x.
Proof.
  destruct x as [a | | |], y as [b | | |]; simpl; intros H1 H2;
    try contradiction; lra.
Qed.

Lemma lt_trans (x y z : number) : lt x y -> lt y z -> lt x z.
Proof.
  destruct x as [a | | |], y as [b | | |], z as [c | | |]; simpl;
    intros H1 H2; try contradiction; try exact I; lra.
Qed.

Lemma lt_irrefl (x : number) : ~ lt x x.
Proof. destruct x as [a | | |]; simpl; intros H; try contradiction; lra. Qed.

(** C4.  The fuel ladder: a jet-fuel change above 2 gives HIGH_HEDGE; above
    0.5 and at most 2, MODERATE_HEDGE; below -1, LOW_HEDGE; anything else,
    NaN included, MONITOR.  The currency ladder: an absolute USD/INR change
    above 1 gives HIGH_VOLATILITY; above 0.3 and at most 1,
    MODERATE_VOLATILITY; anything else STABLE.  The bands exclude one
    another, so the first match is the only one.  [main] feeds each ladder
    the entry of the mapping, or 0 when there is none.  The literal cases of
    the specification follow. *)
Theorem signal_ladders (c : number) :
  ((lt (Fin 2) c -> fuel_signal c = HIGH_HEDGE)
   /\ (lt (Fin 0.5) c -> le c (Fin 2) -> fuel_signal c = MODERATE_HEDGE)
   /\ (lt c (Fin (-1)) -> fuel_signal c = LOW_HEDGE)
   /\ (~ lt (Fin 2) c -> ~ (lt (Fin 0.5) c /\ le c (Fin 2)) ->
       ~ lt c (Fin (-1)) -> fuel_signal c = MONITOR))
  /\ ((lt (Fin 1) (abs c) -> currency_signal c = HIGH_VOLATILITY)
      /\ (lt (Fin 0.3) (abs c) -> le (abs c) (Fin 1) ->
          currency_signal c = MODERATE_VOLATILITY)
      /\ (~ lt (Fin 1) (abs c) ->
          ~ (lt (Fin 0.3) (abs c) /\ le (abs c) (Fin 1)) ->
          currency_signal c = STABLE))
  /\ (forall changes : gmap string number,
        fuel_hedging_analysis changes
        = fuel_signal (default (Fin 0) (changes !! "jet_fuel_change"))
        /\ currency_hedging_analysis changes
           = currency_signal (default (Fin 0) (changes !! "usd_inr_change")))
  /\ (fuel_signal (Fin 2.5) = HIGH_HEDGE
      /\ fuel_signal (Fin 1.0) = MODERATE_HEDGE
      /\ fuel_signal (Fin (-1.5)) = LOW_HEDGE
      /\ fuel_signal (Fin 0.1) = MONITOR
      /\ currency_signal (Fin 1.2) = HIGH_VOLATILITY
      /\ currency_signal (Fin (-0.5)) = MODERATE_VOLATILITY
      /\ currency_signal (Fin 0.1) = STABLE).
Proof.
  split; [| split; [| split]].
  - unfold fuel_signal. repeat split.
    + intros H. apply gtb_lt in H. rewrite H. reflexivity.
    + intros H1 H2. apply le_not_lt, ltb_not_lt in H2. apply gtb_lt in H1.
      unfold gtb at 1. rewrite H2, H1. reflexivity.
    + intros H.
      assert (~ lt (Fin 2) c) as H2
        by (intros H2; apply (lt_irrefl c), (lt_trans _ (Fin (-1))); [exact H |];
            apply (lt_trans _ (Fin 2)); [reflexivity | exact H2]).
      assert (~ lt (Fin 0.5) c) as H1
        by (intros H1; apply (lt_irrefl c), (lt_trans _ (Fin (-1))); [exact H |];
            apply (lt_trans _ (Fin 0.5)); [reflexivity | exact H1]).
      apply ltb_not_lt in H2, H1. apply ltb_lt in H.
      unfold gtb. rewrite H2, H1, H. reflexivity.
    + intros H2 H1 H. apply ltb_not_lt in H2, H. unfold gtb. rewrite H2, H.
      destruct (ltb (Fin 0.5) c) eqn:E; [| reflexivity].
      exfalso. apply H1. apply ltb_lt in E. split; [exact E |].
      apply ltb_not_lt in H2.
      destruct c as [q | | |]; simpl in *;
        try contradiction; try exact I; try discriminate; lra.
  - unfold currency_signal. repeat split.
    + intros H. apply gtb_lt in H. rewrite H. reflexivity.
    + intros H1 H2. apply le_not_lt, ltb_not_lt in H2. apply gtb_lt in H1.
      unfold gtb at 1. rewrite H2, H1. reflexivity.
    + intros H2 H1. apply ltb_not_lt in H2. unfold gtb. rewrite H2.
      destruct (ltb (Fin 0.3) (abs c)) eqn:E; [| reflexivity].
      exfalso. apply H1. apply ltb_lt in E. split; [exact E |].
      apply ltb_not_lt in H2.
      destruct (abs c) as [q | | |]; simpl in *;
        try contradiction; try exact I; try discriminate; lra.
  - intros changes. split; reflexivity.
  - repeat split.
Qed.

(** The literal cases, each from its band. *)
Lemma signal_ladders_witness :
  fuel_signal (Fin 2.5) = HIGH_HEDGE
  /\ fuel_signal (Fin 1.0) = MODERATE_HEDGE
  /\ fuel_signal (Fin (-1.5)) = LOW_HEDGE
  /\ fuel_signal (Fin 0.1) = MONITOR
  /\ currency_signal (Fin 1.2) = HIGH_VOLATILITY
  /\ currency_signal (Fin (-0.5)) = MODERATE_VOLATILITY
  /\ currency_signal (Fin 0.1) = STABLE.
Proof.
  refine (conj _ (conj _ (conj _ (conj _ (conj _ (conj _ _)))))).
  - apply (proj1 (proj1 (signal_ladders (Fin 2.5)))). reflexivity.
  - apply (proj1 (proj2 (proj1 (signal_ladders (Fin 1.0)))));
      [reflexivity | discriminate].
  - apply (proj1 (proj2 (proj2 (proj1 (signal_ladders (Fin (-1.5))))))).
    reflexivity.
  - apply (proj2 (proj2 (proj2 (proj1 (signal_ladders (Fin 0.1))))));
      [intros H | intros [H _] | intros H]; discriminate H.
  - apply (proj1 (proj1 (proj2 (signal_ladders (Fin 1.2))))). reflexivity.
  - apply (proj1 (proj2 (proj1 (proj2 (signal_ladders (Fin (-0.5)))))));
      [reflexivity | discriminate].
  - apply (proj2 (proj2 (proj1 (proj2 (signal_ladders (Fin 0.1))))));
      [intros H | intros [H _]]; discriminate H.
Defined.

(** ** The calculator as [main] calls it *)

(** [main] reaches the recommendations only with two non-empty frames, and
    the mapping it shows is the calculator's on them. *)
Lemma main_calls_calculator_on_nonempty_frames (d : Database)
    (changes : gmap string number) (fuel : FuelSignal)
    (currency : CurrencySignal) :
  main d = Recommendations changes fuel currency ->
  exists fuel_df currency_df,
    load_data d = (Some fuel_df, Some currency_df)
    /\ fuel_df <> [] /\ currency_df <> []
    /\ calculate_price_changes fuel_df currency_df = Ok changes
    /\ fuel = fuel_hedging_analysis changes
    /\ currency = currency_hedging_analysis changes.
Proof.
  unfold main.
  destruct (load_data d) as [[fuel_df |] [currency_df |]]; try discriminate.
  destruct (bool_decide (fuel_df = []) || bool_decide (currency_df = []))
    eqn:He; [discriminate |].
  apply orb_false_elim in He as [Hf Hc].
  apply bool_decide_eq_false_1 in Hf, Hc.
  destruct (calculate_price_changes fuel_df currency_df) as [ch | e] eqn:E;
    [| discriminate].
  intros [= <- <- <-]. exists fuel_df, currency_df. auto 10.
Qed.

(** [main] never stops on an exception of the calculator. *)
Lemma main_never_crashes (d : Database) (e : exn) : main d <> Crashed e.
Proof.
  unfold main.
  destruct (load_data d) as [[fuel_df |] [currency_df |]]; try discriminate.
  destruct (bool_decide (fuel_df = []) || bool_decide (currency_df = []));
    [discriminate |].
  destruct (calculate_price_changes_spec fuel_df currency_df)
    as (changes & -> & _).
  discriminate.
Qed.

(** * Further properties *)

(** ** The fetchers read the clock once *)

Section Stamps.

Context (env : Env).

Lemma fallback_fuel_stamp (s : State) :
  exists d s',
    _get_fallback_fuel_prices env s = (Ok d, s')
    /\ fetched env s s' d /\ log s' = log s.
Proof.
  destruct (random_uniform_spec env 2.3 2.6 s) as (j & Ej & _); [lra |].
  destruct (random_uniform_spec env 60 70
              (set_rng_reads (S (S (rng_reads s))) s)) as (b & Eb & _); [lra |].
  match type of Eb with _ = (_, ?s2) =>
    destruct (random_uniform_spec env 55 65 s2) as (w & Ew & _); [lra |] end.
  eexists _, _. split.
  - unfold _get_fallback_fuel_prices.
    rewrite (bind_Ok _ _ _ _ _ Ej), (bind_Ok _ _ _ _ _ Eb),
      (bind_Ok _ _ _ _ _ Ew).
    reflexivity.
  - split; [| reflexivity]. repeat split.
Qed.

Lemma fallback_currency_stamp (s : State) :
  exists d s',
    _get_fallback_currency_rates env s = (Ok d, s')
    /\ fetched env s s' d /\ log s' = log s.
Proof.
  destruct (random_uniform_spec env 88 90 s) as (u & Eu & _); [lra |].
  destruct (random_uniform_spec env 102 105
              (set_rng_reads (S (S (rng_reads s))) s)) as (e & Ee & _); [lra |].
  match type of Ee with _ = (_, ?s2) =>
    destruct (random_uniform_spec env 117 120 s2) as (g & Eg & _); [lra |] end.
  match type of Eg with _ = (_, ?s3) =>
    destruct (random_uniform_spec env 0.57 0.58 s3) as (j & Ej & _); [lra |] end.
  eexists _, _. split.
  - unfold _get_fallback_currency_rates.
    rewrite (bind_Ok _ _ _ _ _ Eu), (bind_Ok _ _ _ _ _ Ee),
      (bind_Ok _ _ _ _ _ Eg), (bind_Ok _ _ _ _ _ Ej).
    reflexivity.
  - split; [| reflexivity]. repeat split.
Qed.

(** The three ways through [get_live_fuel_prices]: the live path, the
    fallback after a warning (a frame without rows) and the fallback after
    an error (a request raised).  On each the clock is read once, the file
    is not touched, and two records are logged. *)
Lemma get_live_fuel_prices_paths (s : State) :
  exists d s',
    get_live_fuel_prices env s = (Ok (Some d), s')
    /\ fetched env s s' d
    /\ if fuel_source_answers env
       then
         log s' = log s ++ [(INFO, "Fetching live fuel prices...");
                            (INFO, "Live fuel prices collected")]
         /\ rng_reads s' = rng_reads s
       else
         (exists s0, _get_fallback_fuel_prices env s0 = (Ok d, s'))
         /\ log s' = log s ++
             [(INFO, "Fetching live fuel prices...");
              if fuel_request_raises env
              then (ERROR, "Error fetching live fuel prices")
              else (WARNING, "Could not fetch live fuel prices, using fallback")].
Proof.
  set (s0 := set_log (log s ++ [(INFO, "Fetching live fuel prices...")]) s).
  assert (forall lvl msg,
            exists d s',
              (logger lvl msg;;
               fallback ← _get_fallback_fuel_prices env; returned fallback) s0
              = (Ok (Some d), s')
              /\ fetched env s s' d
              /\ (exists s1, _get_fallback_fuel_prices env s1 = (Ok d, s'))
              /\ log s' = log s ++ [(INFO, "Fetching live fuel prices...");
                                    (lvl, msg)]) as Fallback.
  { intros lvl msg.
    destruct (fallback_fuel_stamp (set_log (log s0 ++ [(lvl, msg)]) s0))
      as (d & s' & E & F & L).
    exists d, s'. erewrite bind_Ok by apply logger_run.
    rewrite (bind_Ok _ _ _ _ _ E). split; [reflexivity |].
    split; [exact F |]. split; [eauto |].
    rewrite L. simpl. rewrite <- app_assoc. reflexivity. }
  unfold get_live_fuel_prices, fuel_source_answers, fuel_request_raises.
  destruct (yf_history env "BZ=F") as [e | brent_data] eqn:Hb.
  { destruct (Fallback ERROR "Error fetching live fuel prices")
      as (d & s' & E & F & G & L).
    exists d, s'. split; [| auto].
    erewrite try_except_Raise; [exact E |].
    erewrite bind_Ok by apply logger_run.
    erewrite bind_Raise by (apply ticker_history_raises; exact Hb).
    reflexivity. }
  destruct (yf_history env "CL=F") as [e | wti_data] eqn:Hw.
  { destruct (Fallback ERROR "Error fetching live fuel prices")
      as (d & s' & E & F & G & L).
    exists d, s'. split; [| auto].
    erewrite try_except_Raise; [exact E |].
    erewrite bind_Ok by apply logger_run.
    erewrite bind_Ok by (apply ticker_history_frame; exact Hb).
    erewrite bind_Raise by (apply ticker_history_raises; exact Hw).
    reflexivity. }
  destruct (negb (bool_decide (brent_data = []))
            && negb (bool_decide (wti_data = []))) eqn:Hne.
  - apply andb_prop in Hne as [H1 H2]. apply negb_true_iff in H1, H2.
    destruct (nonempty_last _ H1) as (x & Lx).
    destruct (nonempty_last _ H2) as (y & Ly).
    eexists _, _. split; [| split].
    + apply try_except_Ok.
      erewrite bind_Ok by apply logger_run.
      erewrite bind_Ok by (apply ticker_history_frame; exact Hb).
      erewrite bind_Ok by (apply ticker_history_frame; exact Hw).
      rewrite H1, H2. simpl.
      erewrite bind_Ok by (apply iloc_last_Some; exact Lx).
      erewrite bind_Ok by (apply iloc_last_Some; exact Ly).
      reflexivity.
    + repeat split.
    + split; [| reflexivity]. simpl. rewrite <- app_assoc. reflexivity.
  - destruct (Fallback WARNING
                "Could not fetch live fuel prices, using fallback")
      as (d & s' & E & F & G & L).
    exists d, s'. split; [| auto].
    apply try_except_Ok.
    erewrite bind_Ok by apply logger_run.
    erewrite bind_Ok by (apply ticker_history_frame; exact Hb).
    erewrite bind_Ok by (apply ticker_history_frame; exact Hw).
    rewrite Hne. exact E.
Qed.

End Stamps.

Section CurrencyPaths.

Context (env : Env).

Lemma exchangerate_method_answers_run (s : State) :
  exchangerate_answers (exchangerate_api env) = true ->
  exists d,
    exchangerate_method env s
    = (Ok (Some d),
       set_log (log s ++ [(INFO, "Live currency rates collected")])
               (set_clock_reads (S (clock_reads s)) s))
    /\ d !! "timestamp" = Some (PyDatetime (clock env (clock_reads s))).
Proof.
  intros Ha.
  apply exchangerate_answers_true in Ha as (rates & Hr & He & Hg & Hj).
  eexists. split.
  - unfold exchangerate_method. apply try_except_Ok.
    unfold session_get. rewrite Hr.
    erewrite bind_Ok by reflexivity. simpl.
    erewrite bind_Ok by reflexivity.
    erewrite bind_Ok by (apply py_truediv_divides; exact He).
    erewrite bind_Ok by (apply py_truediv_divides; exact Hg).
    erewrite bind_Ok by (apply py_truediv_divides; exact Hj).
    reflexivity.
  - reflexivity.
Qed.

Lemma exchangerate_method_fails_run (s : State) :
  exchangerate_answers (exchangerate_api env) = false ->
  exchangerate_method env s
  = (Ok None,
     if exchangerate_raises (exchangerate_api env)
     then set_log (log s ++ [(WARNING, "ExchangeRate API failed")]) s
     else s).
Proof.
  intros H. unfold exchangerate_raises. rewrite H.
  unfold exchangerate_answers in H. unfold exchangerate_method, session_get.
  destruct (exchangerate_api env) as [e | status_code [rates |]].
  - reflexivity.
  - destruct (bool_decide (status_code = 200)) eqn:Hs; simpl.
    + erewrite try_except_Raise; [reflexivity |].
      erewrite bind_Ok by reflexivity. simpl. rewrite Hs.
      erewrite bind_Ok by reflexivity. simpl in H.
      destruct (divides (rates_get rates "EUR" 0.85)) eqn:He;
        [| erewrite bind_Raise by (apply py_truediv_zero; exact He); reflexivity].
      erewrite bind_Ok by (apply py_truediv_divides; exact He).
      destruct (divides (rates_get rates "GBP" 0.73)) eqn:Hg;
        [| erewrite bind_Raise by (apply py_truediv_zero; exact Hg); reflexivity].
      erewrite bind_Ok by (apply py_truediv_divides; exact Hg).
      destruct (divides (rates_get rates "JPY" 110.0)) eqn:Hj; [discriminate |].
      erewrite bind_Raise by (apply py_truediv_zero; exact Hj). reflexivity.
    + erewrite try_except_Ok; [reflexivity |].
      erewrite bind_Ok by reflexivity. simpl. rewrite Hs. reflexivity.
  - destruct (bool_decide (status_code = 200)) eqn:Hs; simpl.
    + erewrite try_except_Raise; [reflexivity |].
      erewrite bind_Ok by reflexivity. simpl. rewrite Hs. reflexivity.
    + erewrite try_except_Ok; [reflexivity |].
      erewrite bind_Ok by reflexivity. simpl. rewrite Hs. reflexivity.
Qed.

Lemma yahoo_method_run (s : State) :
  if yahoo_answers env
  then
    exists d,
      yahoo_method env s
      = (Ok (Some d),
         set_log (log s ++
                  [(INFO, "Live currency rates collected via Yahoo Finance")])
                 (set_clock_reads (S (clock_reads s)) s))
      /\ d !! "timestamp" = Some (PyDatetime (clock env (clock_reads s)))
  else
    yahoo_method env s
    = (Ok None,
       if yahoo_raises env
       then set_log (log s ++
                     [(WARNING, "Yahoo Finance currency API failed")]) s
       else s).
Proof.
  unfold yahoo_answers, yahoo_raises, yahoo_method.
  destruct (yf_history env "USDINR=X") as [e | usd_data] eqn:Hu.
  { erewrite try_except_Raise; [reflexivity |].
    erewrite bind_Raise by (apply ticker_history_raises; exact Hu).
    reflexivity. }
  destruct (yf_history env "EURINR=X") as [e | eur_data] eqn:He.
  { erewrite try_except_Raise; [reflexivity |].
    erewrite bind_Ok by (apply ticker_history_frame; exact Hu).
    erewrite bind_Raise by (apply ticker_history_raises; exact He).
    reflexivity. }
  destruct (yf_history env "GBPINR=X") as [e | gbp_data] eqn:Hg.
  { erewrite try_except_Raise; [reflexivity |].
    erewrite bind_Ok by (apply ticker_history_frame; exact Hu).
    erewrite bind_Ok by (apply ticker_history_frame; exact He).
    erewrite bind_Raise by (apply ticker_history_raises; exact Hg).
    reflexivity. }
  destruct (yf_history env "JPYINR=X") as [e | jpy_data] eqn:Hj.
  { erewrite try_except_Raise; [reflexivity |].
    erewrite bind_Ok by (apply ticker_history_frame; exact Hu).
    erewrite bind_Ok by (apply ticker_history_frame; exact He).
    erewrite bind_Ok by (apply ticker_history_frame; exact Hg).
    erewrite bind_Raise by (apply ticker_history_raises; exact Hj).
    reflexivity. }
  destruct (bool_decide (usd_data = [])) eqn:Hne; simpl.
  - apply bool_decide_eq_true_1 in Hne. subst usd_data.
    fold (yahoo_method env).
    apply (yahoo_method_without_usd env s _ _ _ Hu He Hg Hj).
  - destruct (nonempty_last _ Hne) as (usd & Lu).
    eexists. split.
    + apply try_except_Ok.
      erewrite bind_Ok by (apply ticker_history_frame; exact Hu).
      erewrite bind_Ok by (apply ticker_history_frame; exact He).
      erewrite bind_Ok by (apply ticker_history_frame; exact Hg).
      erewrite bind_Ok by (apply ticker_history_frame; exact Hj).
      rewrite Hne. change (negb false) with true. cbv iota.
      erewrite bind_Ok by (apply iloc_last_Some; exact Lu).
      erewrite bind_Ok by apply close_or_run.
      erewrite bind_Ok by apply close_or_run.
      erewrite bind_Ok by apply close_or_run.
      reflexivity.
    + reflexivity.
Qed.

(** The ways through [get_live_currency_rates].  On each the clock is read
    once and the file is not touched; the log grows by [currency_log]; the
    generator is read only when neither service answers. *)
Lemma get_live_currency_rates_paths (s : State) :
  exists d s',
    get_live_currency_rates env s = (Ok (Some d), s')
    /\ fetched env s s' d
    /\ log s' = log s ++ currency_log env
    /\ if currency_source_answers env
       then rng_reads s' = rng_reads s
       else exists s0, _get_fallback_currency_rates env s0 = (Ok d, s').
Proof.
  set (s0 := set_log (log s ++ [(INFO, "Fetching live currency rates...")]) s).
  unfold currency_source_answers, currency_log.
  destruct (exchangerate_answers (exchangerate_api env)) eqn:Ha.
  { destruct (exchangerate_method_answers_run s0 Ha) as (d & E & T).
    eexists d, _.
    split; [apply get_live_currency_rates_method1; exact E |].
    split; [repeat split; exact T |].
    split; [| reflexivity]. simpl. rewrite <- app_assoc. reflexivity. }
  pose proof (exchangerate_method_fails_run s0 Ha) as E1.
  set (s1 := if exchangerate_raises (exchangerate_api env)
             then set_log (log s0 ++ [(WARNING, "ExchangeRate API failed")]) s0
             else s0) in E1.
  assert (db s1 = db s /\ connections s1 = connections s
          /\ clock_reads s1 = clock_reads s /\ rng_reads s1 = rng_reads s
          /\ log s1 = log s ++
               (INFO, "Fetching live currency rates...") ::
               (if exchangerate_raises (exchangerate_api env)
                then [(WARNING, "ExchangeRate API failed")] else []))
    as (D1 & N1 & C1 & R1 & L1).
  { unfold s1. destruct (exchangerate_raises (exchangerate_api env)); simpl;
      rewrite <- ?app_assoc; auto. }
  pose proof (yahoo_method_run s1) as E2. simpl.
  destruct (yahoo_answers env) eqn:Hy.
  { destruct E2 as (d & E2 & T). eexists d, _.
    split; [eapply get_live_currency_rates_method2; [exact E1 | exact E2] |].
    split; [| split].
    - unfold fetched. simpl. rewrite D1, N1, C1. rewrite C1 in T. auto.
    - simpl. rewrite L1. rewrite <- app_assoc. reflexivity.
    - simpl. exact R1. }
  set (s2 := if yahoo_raises env
             then set_log (log s1 ++
                           [(WARNING, "Yahoo Finance currency API failed")]) s1
             else s1) in E2.
  assert (db s2 = db s /\ connections s2 = connections s
          /\ clock_reads s2 = clock_reads s
          /\ log s2 = log s ++
               (INFO, "Fetching live currency rates...") ::
               (if exchangerate_raises (exchangerate_api env)
                then [(WARNING, "ExchangeRate API failed")] else [])
               ++ (if yahoo_raises env
                   then [(WARNING, "Yahoo Finance currency API failed")]
                   else []))
    as (D2 & N2 & C2 & L2).
  { unfold s2. destruct (yahoo_raises env); simpl; rewrite ?L1;
      rewrite <- ?app_assoc, ?app_nil_r; auto. }
  destruct (fallback_currency_stamp env s2) as (d & s' & E3 & F & L3).
  exists d, s'. split; [| split; [| split]].
  - unfold get_live_currency_rates. apply try_except_Ok.
    erewrite bind_Ok by apply logger_run.
    rewrite (and_then_None _ _ _ _ E1), (and_then_None _ _ _ _ E2).
    rewrite (bind_Ok _ _ _ _ _ E3). reflexivity.
  - destruct F as (Fd & Fn & Fc & Ft). unfold fetched.
    rewrite Fd, Fn, Fc, Ft, D2, N2, C2. auto.
  - rewrite L3. exact L2.
  - eauto.
Qed.

End CurrencyPaths.

(** ** One cycle, in full *)

Section CycleInFull.

Context (env : Env).

(** One cycle from any state: what is fetched, what is written and how far
    the clock is read.  The fuel row is stamped with the first reading of
    the clock, the currency row with the second, and the report takes a
    third. *)
Lemma cycle_run (s : State) :
  exists (fuel currency : dict) (s1 s2 s' : State) (j b w u e g y : number),
    get_live_fuel_prices env
      (set_log (log s ++ [(INFO, "Starting real-time data collection...")]) s)
    = (Ok (Some fuel), s1)
    /\ get_live_currency_rates env s1 = (Ok (Some currency), s2)
    /\ (field_is fuel "jet_fuel" j /\ field_is fuel "brent_crude" b
        /\ field_is fuel "wti_crude" w)
    /\ (field_is currency "usd_inr" u /\ field_is currency "eur_inr" e
        /\ field_is currency "gbp_inr" g /\ field_is currency "jpy_inr" y)
    /\ collect_and_store_realtime_data env s = (Ok true, s')
    /\ connections s' = S (connections s)
    /\ clock_reads s' = (3 + clock_reads s)%nat
    /\ db s'
       = if accepts_writes (db s)
         then appended (db s)
                (mkFuelRow (clock env (clock_reads s)) j b w)
                (mkCurrencyRow (clock env (S (clock_reads s))) u e g y)
         else db s.
Proof.
  set (s0 := set_log (log s ++ [(INFO, "Starting real-time data collection...")]) s).
  destruct (get_live_fuel_prices_paths env s0)
    as (fuel & s1 & E1 & (D1 & N1 & C1 & T1) & _).
  destruct (get_live_currency_rates_paths env s1)
    as (currency & s2 & E2 & (D2 & N2 & C2 & T2) & _).
  destruct (get_live_fuel_prices_total env s0) as (fuel' & s1' & E1' & _ & O1).
  rewrite E1 in E1'. injection E1' as <- <-.
  destruct (get_live_currency_rates_total env s1)
    as (currency' & s2' & E2' & _ & O2).
  rewrite E2 in E2'. injection E2' as <- <-.
  pose proof (truthy_fuel_observation _ O1) as Tr1.
  pose proof (truthy_currency_observation _ O2) as Tr2.
  destruct O1 as (_ & (j & Fj) & (b & Fb) & (w & Fw) & _).
  destruct O2 as (_ & (u & Cu) & (e & Ce) & (g & Cg) & (y & Cy) & _).
  pose proof (store_data_in_database_run fuel currency s2 _ j b w _ u e g y
                T1 Fj Fb Fw T2 Cu Ce Cg Cy) as E3.
  exists fuel, currency, s1, s2. eexists. exists j, b, w, u, e, g, y.
  split; [exact E1 |]. split; [exact E2 |]. split; [auto |]. split; [auto |].
  split.
  - unfold collect_and_store_realtime_data. apply try_except_Ok.
    erewrite bind_Ok by apply logger_run.
    erewrite bind_Ok by exact E1.
    erewrite bind_Ok by exact E2.
    rewrite Tr1, Tr2. change (true && true) with true. cbv iota.
    erewrite bind_Ok by exact E3.
    erewrite bind_Ok by (eapply print_report_run; eassumption).
    reflexivity.
  - assert (db s2 = db s) as D by (rewrite D2, D1; reflexivity).
    assert (clock_reads s1 = S (clock_reads s)) as C1' by exact C1.
    rewrite D, C1'.
    destruct (accepts_writes (db s)); simpl;
      rewrite ?N2, ?N1, ?C2, ?C1, ?D; auto.
Qed.

End CycleInFull.

(** ** The writer on any arguments *)

(** The writer on any two arguments, [None] and dictionaries without a key
    or with a value of the wrong kind included: either everything is in
    order and the two rows are committed together, or the exception is
    logged and the file is as before. *)
Lemma store_data_in_database_cases (fuel_prices currency_rates : option dict)
    (s : State) :
  store_data_in_database fuel_prices currency_rates s
  = (Ok tt, set_log (log s ++ [(ERROR, "Error storing data in database")])
              (set_connections (S (connections s)) s))
  \/ exists frow crow,
       accepts_writes (db s) = true
       /\ store_data_in_database fuel_prices currency_rates s
          = (Ok tt,
             set_log (log s ++ [(INFO, "Data stored in database successfully")])
               (set_db (appended (db s) frow crow)
                  (set_connections (S (connections s)) s))).
Proof.
  unfold store_data_in_database, try_except, mbind, M_bind, sqlite3_connect,
    open_database, subscript, getitem.
  destruct s as [cr rr [r wr fp cp] n l]. simpl.
  destruct r; [| by left].
  destruct fuel_prices as [fuel |]; [| by left].
  destruct (fuel !! "timestamp") as [ft |]; [| by left].
  destruct (fuel !! "jet_fuel") as [fj |]; [| by left].
  destruct (fuel !! "brent_crude") as [fb |]; [| by left].
  destruct (fuel !! "wti_crude") as [fw |]; [| by left]. simpl.
  destruct fp as [frows |]; [| by left].
  destruct ft as [? | ft]; [by left |].
  destruct fj as [fj | ?]; [| by left].
  destruct fb as [fb | ?]; [| by left].
  destruct fw as [fw | ?]; [| by left]. simpl.
  destruct wr; [| by left].
  destruct currency_rates as [currency |]; [| by left].
  destruct (currency !! "timestamp") as [ct |]; [| by left].
  destruct (currency !! "usd_inr") as [cu |]; [| by left].
  destruct (currency !! "eur_inr") as [ce |]; [| by left].
  destruct (currency !! "gbp_inr") as [cg |]; [| by left].
  destruct (currency !! "jpy_inr") as [cj |]; [| by left]. simpl.
  destruct cp as [crows |]; [| by left].
  destruct ct as [? | ct]; [by left |].
  destruct cu as [cu | ?]; [| by left].
  destruct ce as [ce | ?]; [| by left].
  destruct cg as [cg | ?]; [| by left].
  destruct cj as [cj | ?]; [| by left].
  right. exists (mkFuelRow ft fj fb fw), (mkCurrencyRow ct cu ce cg cj).
  split; reflexivity.
Qed.

(** ** Writing, then reading *)


Lemma appended_tables (d : Database) (f : FuelRow) (c : CurrencyRow) :
  accepts_writes d = true ->
  exists frows crows,
    fuel_prices d = Some frows /\ currency_rates d = Some crows
    /\ reachable d = true
    /\ appended d f c
       = mkDatabase true true (Some (frows ++ [f])) (Some (crows ++ [c])).
Proof.
  unfold accepts_writes, appended.
  destruct d as [r w [frows |] [crows |]]; simpl; destruct r, w; simpl;
    try discriminate.
  intros _. exists frows, crows. auto.
Qed.

Section CycleProperties.

Context (env : Env).


(** X2.  When the file takes the rows, one cycle appends exactly one row to
    each table and keeps the rows already there, in their order.  The fuel
    row holds the three prices [get_live_fuel_prices] returned in this
    cycle and the first reading of the clock, the currency row the four
    rates [get_live_currency_rates] returned and the second reading. *)
Theorem successful_cycle_appends_the_fetched_rows (s : State) :
  accepts_writes (db s) = true ->
  exists frows crows fuel currency s1 s2 s' frow crow,
    fuel_prices (db s) = Some frows
    /\ currency_rates (db s) = Some crows
    /\ get_live_fuel_prices env
         (set_log (log s ++ [(INFO, "Starting real-time data collection...")]) s)
       = (Ok (Some fuel), s1)
    /\ get_live_currency_rates env s1 = (Ok (Some currency), s2)
    /\ collect_and_store_realtime_data env s = (Ok true, s')
    /\ fuel_prices (db s') = Some (frows ++ [frow])
    /\ currency_rates (db s') = Some (crows ++ [crow])
    /\ (fuel_timestamp frow = clock env (clock_reads s)
        /\ field_is fuel "jet_fuel" (jet_fuel frow)
        /\ field_is fuel "brent_crude" (brent_crude frow)
        /\ field_is fuel "wti_crude" (wti_crude frow))
    /\ (currency_timestamp crow = clock env (S (clock_reads s))
        /\ field_is currency "usd_inr" (usd_inr crow)
        /\ field_is currency "eur_inr" (eur_inr crow)
        /\ field_is currency "gbp_inr" (gbp_inr crow)
        /\ field_is currency "jpy_inr" (jpy_inr crow)).
Proof.
  intros Ha.
  destruct (cycle_run env s)
    as (fuel & currency & s1 & s2 & s' & j & b & w & u & e & g & y
        & E1 & E2 & (Fj & Fb & Fw) & (Cu & Ce & Cg & Cy) & E & _ & _ & D).
  rewrite Ha in D.
  destruct (appended_tables (db s)
              (mkFuelRow (clock env (clock_reads s)) j b w)
              (mkCurrencyRow (clock env (S (clock_reads s))) u e g y) Ha)
    as (frows & crows & Hf & Hc & _ & A).
  rewrite A in D.
  exists frows, crows, fuel, currency, s1, s2, s'.
  eexists _, _. rewrite D. simpl. repeat split; eauto.
Qed.

(** X3.  If the clock never goes back, a cycle keeps both tables in the
    order of their timestamps: when the rows are in that order and none is
    later than the clock, they still are after the cycle, the new rows
    included. *)
Theorem cycle_keeps_tables_chronological (s : State) :
  clock_monotone env ->
  chronological env s ->
  exists s',
    collect_and_store_realtime_data env s = (Ok true, s')
    /\ chronological env s'.
Proof.
  intros Hm [Hf Hc].
  destruct (cycle_run env s)
    as (fuel & currency & s1 & s2 & s' & j & b & w & u & e & g & y
        & _ & _ & _ & _ & E & _ & C & D).
  exists s'. split; [exact E |].
  destruct (accepts_writes (db s)) eqn:Ha.
  - destruct (appended_tables (db s)
                (mkFuelRow (clock env (clock_reads s)) j b w)
                (mkCurrencyRow (clock env (S (clock_reads s))) u e g y) Ha)
      as (frows & crows & Ef & Ec & _ & A).
    rewrite A in D. destruct (Hf _ Ef) as [Sf Bf]. destruct (Hc _ Ec) as [Sc Bc].
    unfold chronological. rewrite D, C. simpl. split.
    + intros rows [= <-]. split.
      * apply StronglySorted_app_2; [| exact Sf | repeat constructor].
        intros x x' Hx Hy. apply list_elem_of_singleton in Hy as ->. simpl.
        apply (Bf x _ Hx). lia.
      * intros r n Hr Hn. apply elem_of_app in Hr as [Hr | Hr].
        -- apply (Bf r n Hr). lia.
        -- apply list_elem_of_singleton in Hr as ->. simpl. apply Hm. lia.
    + intros rows [= <-]. split.
      * apply StronglySorted_app_2; [| exact Sc | repeat constructor].
        intros x x' Hx Hy. apply list_elem_of_singleton in Hy as ->. simpl.
        apply (Bc x _ Hx). lia.
      * intros r n Hr Hn. apply elem_of_app in Hr as [Hr | Hr].
        -- apply (Bc r n Hr). lia.
        -- apply list_elem_of_singleton in Hr as ->. simpl. apply Hm. lia.
  - unfold chronological. rewrite D, C. split.
    + intros rows Hr. destruct (Hf _ Hr) as [Sf Bf]. split; [exact Sf |].
      intros r n Hin Hn. apply (Bf r n Hin). lia.
    + intros rows Hr. destruct (Hc _ Hr) as [Sc Bc]. split; [exact Sc |].
      intros r n Hin Hn. apply (Bc r n Hin). lia.
Qed.


End CycleProperties.

Lemma sample_clock_advances : clock_advances sample_env.
Proof. intros n m H. simpl. unfold sample_clock. lia. Qed.

Lemma sample_clock_monotone : clock_monotone sample_env.
Proof. intros n m H. simpl. unfold sample_clock. lia. Qed.

(** The sample world on an empty store: the two tables get one row each. *)
Lemma successful_cycle_appends_the_fetched_rows_witness :
  exists frows crows fuel currency s1 s2 s' frow crow,
    fuel_prices empty_database = Some frows
    /\ currency_rates empty_database = Some crows
    /\ get_live_fuel_prices sample_env
         (set_log [(INFO, "Starting real-time data collection...")]
                  (initial_state empty_database))
       = (Ok (Some fuel), s1)
    /\ get_live_currency_rates sample_env s1 = (Ok (Some currency), s2)
    /\ collect_and_store_realtime_data sample_env
         (initial_state empty_database) = (Ok true, s')
    /\ fuel_prices (db s') = Some (frows ++ [frow])
    /\ currency_rates (db s') = Some (crows ++ [crow])
    /\ (fuel_timestamp frow = sample_clock 0
        /\ field_is fuel "jet_fuel" (jet_fuel frow)
        /\ field_is fuel "brent_crude" (brent_crude frow)
        /\ field_is fuel "wti_crude" (wti_crude frow))
    /\ (currency_timestamp crow = sample_clock 1
        /\ field_is currency "usd_inr" (usd_inr crow)
        /\ field_is currency "eur_inr" (eur_inr crow)
        /\ field_is currency "gbp_inr" (gbp_inr crow)
        /\ field_is currency "jpy_inr" (jpy_inr crow)).
Proof.
  apply (successful_cycle_appends_the_fetched_rows sample_env
           (initial_state empty_database)).
  reflexivity.
Defined.

Lemma cycle_keeps_tables_chronological_witness :
  exists s',
    collect_and_store_realtime_data sample_env (initial_state ordered_database)
    = (Ok true, s')
    /\ chronological sample_env s'.
Proof.
  apply (cycle_keeps_tables_chronological sample_env
           (initial_state ordered_database)).
  - intros n m H. simpl. unfold sample_clock. lia.
  - split.
    + intros rows [= <-]. split.
      * unfold ascending, ordered_fuel_rows.
        repeat (constructor; simpl; try lia).
      * intros r n Hr _. unfold ordered_fuel_rows in Hr.
        repeat (apply elem_of_cons in Hr as [-> | Hr];
                [simpl; unfold sample_clock; lia |]).
        by apply elem_of_nil in Hr.
    + intros rows [= <-]. split.
      * unfold ascending, ordered_currency_rows.
        repeat (constructor; simpl; try lia).
      * intros r n Hr _. unfold ordered_currency_rows in Hr.
        repeat (apply elem_of_cons in Hr as [-> | Hr];
                [simpl; unfold sample_clock; lia |]).
        by apply elem_of_nil in Hr.
Defined.


(** ** Two cycles, then the dashboard *)

Section TwoCycles.

Context (env : Env).


End TwoCycles.


(** ** What the fetchers and the writer do on every path *)

Section EveryPath.

Context (env : Env).

(** X6.  On any two arguments ([None], a dictionary without one of the
    keys, a value of the wrong kind) and any file, the writer returns
    normally and opens exactly one connection.  Either both rows are
    committed, one at the end of each table, or the file is left exactly as
    it was and the error is logged: there is never one row without the
    other. *)
Theorem writer_commits_both_rows_or_none
    (observed_fuel observed_currency : option dict) (s : State) :
  exists s',
    store_data_in_database observed_fuel observed_currency s = (Ok tt, s')
    /\ connections s' = S (connections s)
    /\ ((db s' = db s
         /\ last (log s') = Some (ERROR, "Error storing data in database"))
        \/ (exists frows crows frow crow,
              fuel_prices (db s) = Some frows
              /\ currency_rates (db s) = Some crows
              /\ fuel_prices (db s') = Some (frows ++ [frow])
              /\ currency_rates (db s') = Some (crows ++ [crow])
              /\ last (log s')
                 = Some (INFO, "Data stored in database successfully"))).
Proof.
  destruct (store_data_in_database_cases observed_fuel observed_currency s)
    as [E | (frow & crow & Ha & E)].
  - eexists. split; [exact E |]. split; [reflexivity |].
    left. split; [reflexivity |]. simpl. apply last_snoc.
  - match type of E with _ = (_, ?st) => set (s' := st) in E end.
    exists s'. split; [exact E |]. split; [reflexivity |]. right.
    destruct (appended_tables (db s) frow crow Ha)
      as (frows & crows & Hf & Hc & _ & A).
    assert (db s' = appended (db s) frow crow) as D by reflexivity.
    exists frows, crows, frow, crow. rewrite D, A. simpl.
    repeat split; try assumption. apply last_snoc.
Qed.

(** X7.  On every path each fetcher reads the clock exactly once, and that
    reading is the timestamp of the observation it returns; it opens no
    connection and leaves the file as it was. *)
Theorem fetchers_stamp_one_clock_reading (s : State) :
  (exists d s',
     get_live_fuel_prices env s = (Ok (Some d), s')
     /\ d !! "timestamp" = Some (PyDatetime (clock env (clock_reads s)))
     /\ clock_reads s' = S (clock_reads s)
     /\ db s' = db s /\ connections s' = connections s)
  /\
  (exists d s',
     get_live_currency_rates env s = (Ok (Some d), s')
     /\ d !! "timestamp" = Some (PyDatetime (clock env (clock_reads s)))
     /\ clock_reads s' = S (clock_reads s)
     /\ db s' = db s /\ connections s' = connections s).
Proof.
  split.
  - destruct (get_live_fuel_prices_paths env s)
      as (d & s' & E & (D & N & C & T) & _).
    exists d, s'. auto.
  - destruct (get_live_currency_rates_paths env s)
      as (d & s' & E & (D & N & C & T) & _).
    exists d, s'. auto.
Qed.

(** X8.  The fuel observation is live only when both benchmarks are
    there.  When either request raises or either frame has no rows, the
    quote that did arrive is not used: all three prices are the fallback
    generator's, within its intervals, and the log says so, with an ERROR
    when a request raised and a WARNING otherwise. *)
Theorem fuel_fallback_when_a_benchmark_is_missing (s : State) :
  fuel_source_answers env = false ->
  exists d s',
    get_live_fuel_prices env s = (Ok (Some d), s')
    /\ field_within d "jet_fuel" 2.3 2.6
    /\ field_within d "brent_crude" 60 70
    /\ field_within d "wti_crude" 55 65
    /\ log s' = log s ++
         [(INFO, "Fetching live fuel prices...");
          if fuel_request_raises env
          then (ERROR, "Error fetching live fuel prices")
          else (WARNING, "Could not fetch live fuel prices, using fallback")].
Proof.
  intros Ha.
  destruct (get_live_fuel_prices_paths env s) as (d & s' & E & _ & P).
  rewrite Ha in P. destruct P as [(s0 & F) L].
  destruct (fallback_fuel_bounds env _ _ _ F) as (_ & Hj & Hb & Hw & _).
  exists d, s'. auto.
Qed.

(** X9.  The currency fallback can go unlogged.  When the exchange-rate
    service answers with a status other than 200 and Yahoo has no USD/INR
    data, no request having raised, the observation is the fallback
    generator's and the call logs nothing but its opening INFO record: no
    WARNING and no ERROR tells that the rates are synthetic. *)
Theorem currency_fallback_can_go_unlogged (s : State) (status_code : Z)
    (rates : option (gmap string number))
    (eur_data gbp_data jpy_data : list number) :
  exchangerate_api env = Response status_code rates ->
  status_code <> 200 ->
  yf_history env "USDINR=X" = HistoryFrame [] ->
  yf_history env "EURINR=X" = HistoryFrame eur_data ->
  yf_history env "GBPINR=X" = HistoryFrame gbp_data ->
  yf_history env "JPYINR=X" = HistoryFrame jpy_data ->
  exists d s',
    get_live_currency_rates env s = (Ok (Some d), s')
    /\ field_within d "usd_inr" 88 90
    /\ field_within d "eur_inr" 102 105
    /\ field_within d "gbp_inr" 117 120
    /\ field_within d "jpy_inr" 0.57 0.58
    /\ log s' = log s ++ [(INFO, "Fetching live currency rates...")].
Proof.
  intros Hr Hs Hu He Hg Hj.
  destruct (get_live_currency_rates_paths env s) as (d & s' & E & _ & L & P).
  assert (bool_decide (status_code = 200) = false) as Hb
    by (apply bool_decide_eq_false_2; exact Hs).
  assert (exchangerate_answers (exchangerate_api env) = false) as Ha
    by (rewrite Hr; simpl; destruct rates; [rewrite Hb |]; reflexivity).
  unfold currency_source_answers, currency_log in *.
  rewrite Ha in *.
  unfold exchangerate_raises, yahoo_answers, yahoo_raises in *.
  rewrite Hr, Hb, Hu, He, Hg, Hj in *. simpl in L, P.
  destruct P as (s0 & F).
  destruct (fallback_currency_bounds env _ _ _ F)
    as (_ & Bu & Be & Bg & Bj & _).
  exists d, s'. auto 10.
Qed.

End EveryPath.

(** Brent is quoted at 82.456 and WTI has no data: brent_crude is the
    generator's, between 60 and 70. *)
Lemma fuel_fallback_when_a_benchmark_is_missing_witness :
  exists d s',
    get_live_fuel_prices wti_missing_env (initial_state empty_database)
    = (Ok (Some d), s')
    /\ field_within d "jet_fuel" 2.3 2.6
    /\ field_within d "brent_crude" 60 70
    /\ field_within d "wti_crude" 55 65
    /\ log s'
       = [(INFO, "Fetching live fuel prices...");
          (WARNING, "Could not fetch live fuel prices, using fallback")].
Proof.
  apply (fuel_fallback_when_a_benchmark_is_missing wti_missing_env
           (initial_state empty_database)).
  reflexivity.
Defined.

Lemma currency_fallback_can_go_unlogged_witness :
  exists d s',
    get_live_currency_rates quiet_failure_env (initial_state empty_database)
    = (Ok (Some d), s')
    /\ field_within d "usd_inr" 88 90
    /\ field_within d "eur_inr" 102 105
    /\ field_within d "gbp_inr" 117 120
    /\ field_within d "jpy_inr" 0.57 0.58
    /\ log s' = [(INFO, "Fetching live currency rates...")].
Proof.
  apply (currency_fallback_can_go_unlogged quiet_failure_env
           (initial_state empty_database) 503 None [] [] []);
    first [reflexivity | discriminate].
Defined.

(** ** The exchange-rate service comes first *)

Lemma exchangerate_method_explicit (env : Env) (s : State)
    (rates : gmap string number) :
  exchangerate_api env = Response 200 (Some rates) ->
  divides (rates_get rates "EUR" 0.85) = true ->
  divides (rates_get rates "GBP" 0.73) = true ->
  divides (rates_get rates "JPY" 110.0) = true ->
  exchangerate_method env s
  = (Ok (Some (dict_display
       [("usd_inr", PyFloat (round (rates_get rates "INR" 83.0) 2));
        ("eur_inr",
         PyFloat (round (np_div (rates_get rates "INR" 83.0)
                                (rates_get rates "EUR" 0.85)) 2));
        ("gbp_inr",
         PyFloat (round (np_div (rates_get rates "INR" 83.0)
                                (rates_get rates "GBP" 0.73)) 2));
        ("jpy_inr",
         PyFloat (round (np_div (rates_get rates "INR" 83.0)
                                (rates_get rates "JPY" 110.0)) 6));
        ("timestamp", PyDatetime (clock env (clock_reads s)))])),
     set_log (log s ++ [(INFO, "Live currency rates collected")])
             (set_clock_reads (S (clock_reads s)) s)).
Proof.
  intros Hr He Hg Hj.
  unfold exchangerate_method. apply try_except_Ok.
  unfold session_get. rewrite Hr.
  erewrite bind_Ok by reflexivity. simpl.
  erewrite bind_Ok by reflexivity.
  erewrite bind_Ok by (apply py_truediv_divides; exact He).
  erewrite bind_Ok by (apply py_truediv_divides; exact Hg).
  erewrite bind_Ok by (apply py_truediv_divides; exact Hj).
  reflexivity.
Qed.

(** X10.  When the exchange-rate service answers, nothing else has a say:
    two worlds with the same answer of that service and the same clock give
    the same observation and the same state, whatever Yahoo would have
    quoted and whatever the random generator holds; it is not read. *)
Theorem exchangerate_answer_hides_yahoo (env1 env2 : Env) (s : State) :
  exchangerate_answers (exchangerate_api env1) = true ->
  exchangerate_api env2 = exchangerate_api env1 ->
  clock env2 (clock_reads s) = clock env1 (clock_reads s) ->
  get_live_currency_rates env2 s = get_live_currency_rates env1 s
  /\ rng_reads (get_live_currency_rates env1 s).2 = rng_reads s.
Proof.
  intros Ha Hapi Hclock.
  apply exchangerate_answers_true in Ha as (rates & Hr & He & Hg & Hj).
  pose proof (exchangerate_method_explicit env1
                (set_log (log s ++ [(INFO, "Fetching live currency rates...")]) s)
                rates Hr He Hg Hj) as E1.
  rewrite <- Hapi in Hr.
  pose proof (exchangerate_method_explicit env2
                (set_log (log s ++ [(INFO, "Fetching live currency rates...")]) s)
                rates Hr He Hg Hj) as E2.
  apply get_live_currency_rates_method1 in E1, E2.
  rewrite E1, E2. simpl. rewrite Hclock. split; reflexivity.
Qed.

(** X11.  A rate missing from the table answered with status 200 is
    replaced by a literal, each on its own: INR by 83.0, EUR by 0.85, GBP
    by 0.73, JPY by 110.0.  Provided the EUR, GBP and JPY rates that are
    there are not zero, the observation is computed from the table and
    these literals, and returned as live rates. *)
Theorem missing_rates_take_their_literals (env : Env) (s : State)
    (rates : gmap string number) :
  exchangerate_api env = Response 200 (Some rates) ->
  (forall q, rates !! "EUR" = Some (Fin q) -> ~ (q == 0)%Q) ->
  (forall q, rates !! "GBP" = Some (Fin q) -> ~ (q == 0)%Q) ->
  (forall q, rates !! "JPY" = Some (Fin q) -> ~ (q == 0)%Q) ->
  exists d s',
    get_live_currency_rates env s = (Ok (Some d), s')
    /\ field_is d "usd_inr"
         (round (default (Fin 83.0) (rates !! "INR")) 2)
    /\ field_is d "eur_inr"
         (round (np_div (default (Fin 83.0) (rates !! "INR"))
                        (default (Fin 0.85) (rates !! "EUR"))) 2)
    /\ field_is d "gbp_inr"
         (round (np_div (default (Fin 83.0) (rates !! "INR"))
                        (default (Fin 0.73) (rates !! "GBP"))) 2)
    /\ field_is d "jpy_inr"
         (round (np_div (default (Fin 83.0) (rates !! "INR"))
                        (default (Fin 110.0) (rates !! "JPY"))) 6)
    /\ last (log s') = Some (INFO, "Live currency rates collected").
Proof.
  intros Hr Ze Zg Zj.
  assert (forall key (lit : Q),
            ~ (lit == 0)%Q ->
            (forall q, rates !! key = Some (Fin q) -> ~ (q == 0)%Q) ->
            divides (rates_get rates key lit) = true) as Hdiv.
  { intros key lit Hlit Hkey. unfold rates_get, divides.
    destruct (rates !! key) as [[q | | |] |]; simpl; try reflexivity.
    - apply negb_true_iff, Qis_zero_neq, Hkey. reflexivity.
    - apply negb_true_iff, Qis_zero_neq, Hlit. }
  pose proof (exchangerate_method_explicit env
                (set_log (log s ++ [(INFO, "Fetching live currency rates...")]) s)
                rates Hr
                (Hdiv "EUR" 0.85%Q ltac:(discriminate) Ze)
                (Hdiv "GBP" 0.73%Q ltac:(discriminate) Zg)
                (Hdiv "JPY" 110.0%Q ltac:(discriminate) Zj)) as E.
  apply get_live_currency_rates_method1 in E.
  eexists _, _. split; [exact E |].
  unfold field_is, dict_display, rates_get. simpl foldl.
  repeat split; try by simplify_map_eq.
  simpl. apply last_snoc.
Qed.

(** The answer of [exchangerate_env] with and without Yahoo quotes behind
    it. *)
Lemma exchangerate_answer_hides_yahoo_witness :
  get_live_currency_rates exchangerate_env_with_quotes
    (initial_state empty_database)
  = get_live_currency_rates exchangerate_env (initial_state empty_database)
  /\ rng_reads
       (get_live_currency_rates exchangerate_env
          (initial_state empty_database)).2 = 0%nat.
Proof.
  apply (exchangerate_answer_hides_yahoo exchangerate_env
           exchangerate_env_with_quotes (initial_state empty_database));
    reflexivity.
Defined.

(** An empty table answered with status 200 gives 83.00, 97.65, 113.70 and
    0.754545. *)
Lemma missing_rates_take_their_literals_witness :
  exists d s',
    get_live_currency_rates empty_table_env (initial_state empty_database)
    = (Ok (Some d), s')
    /\ field_is d "usd_inr" (Fin 83.00)
    /\ field_is d "eur_inr" (Fin 97.65)
    /\ field_is d "gbp_inr" (Fin 113.70)
    /\ field_is d "jpy_inr" (Fin 0.754545)
    /\ last (log s') = Some (INFO, "Live currency rates collected").
Proof.
  destruct (missing_rates_take_their_literals empty_table_env
              (initial_state empty_database) ∅)
    as (d & s' & E & Hu & He & Hg & Hj & L);
    try first [reflexivity | intros q H; discriminate H].
  exists d, s'. split; [exact E |].
  split; [exact Hu |]. split; [exact He |]. split; [exact Hg |].
  split; [exact Hj | exact L].
Defined.

(** ** The dashboard on what it loads *)




(** X13.  Too little history reads as a calm market.  When the fuel frame
    has fewer than two rows the fuel signal is MONITOR, and when the
    currency frame has fewer than two rows the currency signal is STABLE,
    whatever the prices in them. *)
Theorem short_history_gives_the_calm_signals (fuel_df : FuelFrame)
    (currency_df : CurrencyFrame) :
  exists changes,
    calculate_price_changes fuel_df currency_df = Ok changes
    /\ ((length fuel_df < 2)%nat -> fuel_hedging_analysis changes = MONITOR)
    /\ ((length currency_df < 2)%nat ->
        currency_hedging_analysis changes = STABLE).
Proof.
  destruct (calculate_price_changes_spec fuel_df currency_df)
    as (changes & E & He & H).
  exists changes. split; [exact E |].
  unfold fuel_hedging_analysis, currency_hedging_analysis, changes_get.
  destruct fuel_df as [| lf [| pf rf]], currency_df as [| lc [| pc rc]];
    try (rewrite He by auto; split; intros; reflexivity);
    destruct H as [Hf Hc]; try discriminate; split; intros Hl;
    simpl in Hl; try lia.
  - rewrite (Hf "jet_fuel_change" jet_fuel) by constructor. reflexivity.
  - rewrite (Hc "usd_inr_change" usd_inr) by constructor. reflexivity.
  - rewrite (Hf "jet_fuel_change" jet_fuel) by constructor. reflexivity.
  - rewrite (Hc "usd_inr_change" usd_inr) by constructor. reflexivity.
Qed.

(** ** Edge values through the calculator and the ladders *)

Lemma Qis_zero_comp (x y : Q) : (x == y)%Q -> Qis_zero x = Qis_zero y.
Proof. intros H. unfold Qis_zero. rewrite H. reflexivity. Qed.

Lemma Qltb_comp (x x' y y' : Q) :
  (x == x')%Q -> (y == y')%Q -> Qltb x y = Qltb x' y'.
Proof. intros H1 H2. unfold Qltb. rewrite H1, H2. reflexivity. Qed.

(** The change over a previous value of zero: an infinity of the sign of
    the latest value, NaN when that is zero too. *)
Lemma pct_change_over_zero (l p : Q) :
  (p == 0)%Q ->
  pct_change (Fin l) (Fin p)
  = match (l ?= 0)%Q with
    | Gt => PInf
    | Lt => NInf
    | Eq => NaN
    end.
Proof.
  intros Hp. unfold pct_change, sub, np_div. simpl.
  rewrite (proj2 (Qis_zero_eq p) Hp).
  assert (l + - p == l)%Q as Hl by (rewrite Hp; ring).
  rewrite (Qis_zero_comp _ _ Hl), (Qltb_comp _ l 0 0 Hl (Qeq_refl 0)).
  unfold Qis_zero, Qltb. destruct (l ?= 0)%Q; reflexivity.
Qed.

(** X14.  A previous value of zero drives the signals to their extremes.
    With two fuel rows or more, a previous jet-fuel price of zero gives
    HIGH_HEDGE when the latest price is positive, LOW_HEDGE when it is
    negative and MONITOR when it is zero too; a previous USD/INR rate of
    zero gives HIGH_VOLATILITY unless the latest rate is zero too, which
    gives STABLE. *)
Theorem zero_previous_drives_the_signals
    (latest_fuel previous_fuel : FuelRow) (fuel_rest : FuelFrame)
    (latest_currency previous_currency : CurrencyRow)
    (currency_rest : CurrencyFrame) (jet usd : Q) :
  is_zero (jet_fuel previous_fuel) ->
  is_zero (usd_inr previous_currency) ->
  jet_fuel latest_fuel = Fin jet ->
  usd_inr latest_currency = Fin usd ->
  exists changes,
    calculate_price_changes (latest_fuel :: previous_fuel :: fuel_rest)
      (latest_currency :: previous_currency :: currency_rest) = Ok changes
    /\ fuel_hedging_analysis changes
       = match (jet ?= 0)%Q with
         | Gt => HIGH_HEDGE
         | Lt => LOW_HEDGE
         | Eq => MONITOR
         end
    /\ currency_hedging_analysis changes
       = match (usd ?= 0)%Q with
         | Eq => STABLE
         | _ => HIGH_VOLATILITY
         end.
Proof.
  intros Zf Zc Hj Hu.
  eexists. split; [apply calculate_price_changes_two_two |].
  unfold fuel_hedging_analysis, currency_hedging_analysis, changes_get.
  destruct (jet_fuel previous_fuel) as [pj | | |] eqn:Ej; try contradiction.
  destruct (usd_inr previous_currency) as [pu | | |] eqn:Eu; try contradiction.
  simpl in Zf, Zc. split.
  - rewrite lookup_insert_ne by discriminate.
    rewrite lookup_insert_ne by discriminate.
    rewrite lookup_insert_ne by discriminate.
    rewrite lookup_insert_ne by discriminate.
    rewrite lookup_insert_ne by discriminate.
    rewrite lookup_insert_ne by discriminate.
    rewrite lookup_insert_eq. simpl.
    rewrite Hj, (pct_change_over_zero jet pj Zf).
    destruct (jet ?= 0)%Q; reflexivity.
  - rewrite lookup_insert_ne by discriminate.
    rewrite lookup_insert_ne by discriminate.
    rewrite lookup_insert_ne by discriminate.
    rewrite lookup_insert_eq. simpl.
    rewrite Hu, (pct_change_over_zero usd pu Zc).
    destruct (usd ?= 0)%Q; reflexivity.
Qed.

(** The older jet-fuel price and USD/INR rate are zero, the latest are
    2.55 and 88.5: HIGH_HEDGE and HIGH_VOLATILITY. *)
Lemma zero_previous_drives_the_signals_witness :
  exists changes,
    calculate_price_changes
      [mkFuelRow 30 (Fin 2.55) (Fin 65.00) (Fin 61.00);
       mkFuelRow 20 (Fin 0) (Fin 64.10) (Fin 60.20)]
      [mkCurrencyRow 30 (Fin 88.5) (Fin 103.10) (Fin 118.20) (Fin 0.571);
       mkCurrencyRow 20 (Fin 0) (Fin 103.00) (Fin 118.00) (Fin 0.572)]
    = Ok changes
    /\ fuel_hedging_analysis changes = HIGH_HEDGE
    /\ currency_hedging_analysis changes = HIGH_VOLATILITY.
Proof.
  apply (zero_previous_drives_the_signals
           (mkFuelRow 30 (Fin 2.55) (Fin 65.00) (Fin 61.00))
           (mkFuelRow 20 (Fin 0) (Fin 64.10) (Fin 60.20)) []
           (mkCurrencyRow 30 (Fin 88.5) (Fin 103.10) (Fin 118.20) (Fin 0.571))
           (mkCurrencyRow 20 (Fin 0) (Fin 103.00) (Fin 118.00) (Fin 0.572)) []
           2.55 88.5); reflexivity.
Defined.

(** ** Data freshness *)

Lemma total_seconds_lt (age : Z) (n : Z) :
  Qltb (total_seconds age) (n # 1) = true <-> age < n * 1000000.
Proof.
  rewrite Qltb_lt. unfold total_seconds, Qlt. simpl. lia.
Qed.

Lemma total_seconds_ge (age : Z) (n : Z) :
  Qltb (total_seconds age) (n # 1) = false <-> n * 1000000 ≤ age.
Proof.
  rewrite Qltb_ge. unfold total_seconds, Qle. simpl. lia.
Qed.

Lemma timedelta_seconds_range (age : Z) : 0 ≤ timedelta_seconds age < 86400.
Proof.
  unfold timedelta_seconds.
  pose proof (Z.mod_pos_bound age 86400000000 ltac:(lia)).
  split; [apply Z.div_pos; lia | apply Z.div_lt_upper_bound; lia].
Qed.

Lemma timedelta_seconds_small (age : Z) :
  0 ≤ age < 86400000000 -> timedelta_seconds age = age / 1000000.
Proof. intros H. unfold timedelta_seconds. rewrite Z.mod_small by lia. done. Qed.

(** X15.  The freshness message by age.  Under five minutes the data is
    called fresh, under an hour its age is given in minutes, beyond in
    hours.  The count is taken from the seconds of the day alone: an age of
    a day or more is reported without its whole days (25 hours read as 1
    hour), and a row stamped later than now, whose age is negative, is
    called fresh with a count of up to 1439 minutes. *)
Theorem freshness_counts_within_the_day (age : Z) :
  (0 ≤ age < 300000000 ->
   freshness_of_age age = DataIsFresh (age / 60000000)
   /\ 0 ≤ age / 60000000 ≤ 4)
  /\ (300000000 ≤ age < 3600000000 ->
      freshness_of_age age = DataIsMinutesOld (age / 60000000)
      /\ 5 ≤ age / 60000000 ≤ 59)
  /\ (3600000000 ≤ age ->
      freshness_of_age age = DataIsHoursOld ((age / 3600000000) mod 24)
      /\ freshness_of_age (age + 86400000000) = freshness_of_age age)
  /\ (age < 0 ->
      exists minutes,
        freshness_of_age age = DataIsFresh minutes /\ 0 ≤ minutes ≤ 1439).
Proof.
  assert (forall a, 3600000000 ≤ a ->
            freshness_of_age a = DataIsHoursOld ((a / 3600000000) mod 24))
    as Hours.
  { intros a Ha. unfold freshness_of_age.
    rewrite (proj2 (total_seconds_ge a 300)) by lia.
    rewrite (proj2 (total_seconds_ge a 3600)) by lia.
    f_equal. unfold timedelta_seconds.
    rewrite Z.div_div by lia.
    change (1000000 * 3600) with 3600000000.
    change 86400000000 with (3600000000 * 24).
    rewrite Z.rem_mul_r by lia.
    rewrite Z.mul_comm, Z.div_add by lia.
    rewrite (Z.div_small (a mod 3600000000)); [reflexivity |].
    apply Z.mod_pos_bound. lia. }
  split; [| split; [| split]].
  - intros H. unfold freshness_of_age.
    rewrite (proj2 (total_seconds_lt age 300)) by lia.
    rewrite timedelta_seconds_small, Z.div_div by lia.
    split; [reflexivity |].
    change (1000000 * 60) with 60000000.
    assert (age / 60000000 < 5) by (apply Z.div_lt_upper_bound; lia).
    split; [apply Z.div_pos; lia | lia].
  - intros H. unfold freshness_of_age.
    rewrite (proj2 (total_seconds_ge age 300)) by lia.
    rewrite (proj2 (total_seconds_lt age 3600)) by lia.
    rewrite timedelta_seconds_small, Z.div_div by lia.
    split; [reflexivity |].
    change (1000000 * 60) with 60000000.
    assert (age / 60000000 < 60) by (apply Z.div_lt_upper_bound; lia).
    split; [apply Z.div_le_lower_bound; lia | lia].
  - intros H. split; [apply Hours, H |].
    rewrite !Hours by lia. f_equal.
    change 86400000000 with (24 * 3600000000).
    rewrite Z.div_add by lia.
    rewrite <- Zplus_mod_idemp_r. rewrite Z.mod_same by lia.
    rewrite Z.add_0_r. reflexivity.
  - intros H. unfold freshness_of_age.
    rewrite (proj2 (total_seconds_lt age 300)) by lia.
    eexists. split; [reflexivity |].
    pose proof (timedelta_seconds_range age).
    assert (timedelta_seconds age / 60 < 1440)
      by (apply Z.div_lt_upper_bound; lia).
    split; [apply Z.div_pos; lia | lia].
Qed.

(** Twenty-five hours read as one hour, and as forty-nine hours do. *)
Lemma freshness_counts_within_the_day_witness :
  freshness_of_age 90000000000
  = DataIsHoursOld ((90000000000 / 3600000000) mod 24)
  /\ freshness_of_age (90000000000 + 86400000000)
     = freshness_of_age 90000000000.
Proof.
  apply (proj1 (proj2 (proj2 (freshness_counts_within_the_day 90000000000)))).
  lia.
Defined.

Lemma foldl_max_ge (column : list Z) (t : Z) :
  t ≤ foldl Z.max t column
  /\ (forall x, x ∈ column -> x ≤ foldl Z.max t column)
  /\ (foldl Z.max t column = t \/ foldl Z.max t column ∈ column).
Proof.
  revert t. induction column as [| x column IH]; intros t; simpl.
  - split; [lia |]. split; [| auto]. intros x Hx. by apply elem_of_nil in Hx.
  - destruct (IH (Z.max t x)) as (H1 & H2 & H3). split; [lia |]. split.
    + intros y Hy. apply elem_of_cons in Hy as [-> | Hy]; [lia | auto].
    + destruct H3 as [H3 | H3].
      * rewrite H3. destruct (Z.max_spec t x) as [[_ ->] | [_ ->]];
          [right; constructor | auto].
      * right. by constructor.
Qed.

Lemma column_max_spec (column : list Z) :
  column <> [] ->
  exists m,
    column_max column = Some m
    /\ m ∈ column /\ forall x, x ∈ column -> x ≤ m.
Proof.
  destruct column as [| t rest]; [contradiction |]. intros _.
  destruct (foldl_max_ge rest t) as (H1 & H2 & H3).
  exists (foldl Z.max t rest). split; [reflexivity |]. split.
  - destruct H3 as [-> | H3]; [constructor | by constructor].
  - intros x Hx. apply elem_of_cons in Hx as [-> | Hx]; auto.
Qed.

(** X16.  The age [main] reports is that of the newest row of either
    series: it is measured from a timestamp that is in one of the two
    frames and that no row of either exceeds.  A series that has stopped
    being written is therefore reported fresh for as long as the other one
    is. *)
Theorem freshness_is_that_of_the_newest_row (now : Z) (fuel_df : FuelFrame)
    (currency_df : CurrencyFrame) :
  fuel_df <> [] -> currency_df <> [] ->
  exists latest_ts,
    data_freshness now fuel_df currency_df
    = Some (freshness_of_age (now - latest_ts))
    /\ (forall r, r ∈ fuel_df -> fuel_timestamp r ≤ latest_ts)
    /\ (forall r, r ∈ currency_df -> currency_timestamp r ≤ latest_ts)
    /\ ((exists r, r ∈ fuel_df /\ fuel_timestamp r = latest_ts)
        \/ (exists r, r ∈ currency_df /\ currency_timestamp r = latest_ts)).
Proof.
  intros Nf Nc.
  destruct (column_max_spec (fuel_timestamp <$> fuel_df))
    as (mf & Ef & If & Mf); [by destruct fuel_df |].
  destruct (column_max_spec (currency_timestamp <$> currency_df))
    as (mc & Ec & Ic & Mc); [by destruct currency_df |].
  exists (Z.max mf mc). unfold data_freshness. rewrite Ef, Ec.
  split; [reflexivity |]. split; [| split].
  - intros r Hr. specialize (Mf (fuel_timestamp r)).
    rewrite list_elem_of_fmap in Mf.
    assert (fuel_timestamp r ≤ mf) by (apply Mf; eauto). lia.
  - intros r Hr. specialize (Mc (currency_timestamp r)).
    rewrite list_elem_of_fmap in Mc.
    assert (currency_timestamp r ≤ mc) by (apply Mc; eauto). lia.
  - apply list_elem_of_fmap in If as (rf & Hrf & Hf).
    apply list_elem_of_fmap in Ic as (rc & Hrc & Hc).
    destruct (Z.max_spec mf mc) as [[_ ->] | [_ ->]]; [right | left]; eauto.
Qed.

(** The fuel series stopped long ago, the currency series was written one
    second before now: the data is called fresh. *)
Lemma freshness_is_that_of_the_newest_row_witness :
  (exists latest_ts,
     data_freshness 1001000030 sample_fuel_rows
       [mkCurrencyRow 1000000030 (Fin 88.5) (Fin 103.1) (Fin 118.2)
                      (Fin 0.571)]
     = Some (freshness_of_age (1001000030 - latest_ts))
     /\ (forall r, r ∈ sample_fuel_rows -> fuel_timestamp r ≤ latest_ts)
     /\ (forall r,
           r ∈ [mkCurrencyRow 1000000030 (Fin 88.5) (Fin 103.1) (Fin 118.2)
                              (Fin 0.571)] ->
           currency_timestamp r ≤ latest_ts)
     /\ ((exists r, r ∈ sample_fuel_rows /\ fuel_timestamp r = latest_ts)
         \/ (exists r,
               r ∈ [mkCurrencyRow 1000000030 (Fin 88.5) (Fin 103.1)
                                  (Fin 118.2) (Fin 0.571)]
               /\ currency_timestamp r = latest_ts)))
  /\ data_freshness 1001000030 sample_fuel_rows
       [mkCurrencyRow 1000000030 (Fin 88.5) (Fin 103.1) (Fin 118.2)
                      (Fin 0.571)]
     = Some (DataIsFresh 0).
Proof.
  split; [| reflexivity].
  apply (freshness_is_that_of_the_newest_row 1001000030 sample_fuel_rows
           [mkCurrencyRow 1000000030 (Fin 88.5) (Fin 103.1) (Fin 118.2)
                          (Fin 0.571)]); discriminate.
Defined.

(** ** The ladders as functions of the change *)

(** X17.  The fuel ladder never steps down as the jet-fuel change grows:
    from LOW_HEDGE through MONITOR and MODERATE_HEDGE to HIGH_HEDGE, over
    the finite values and the two infinities. *)
Theorem fuel_signal_never_steps_down (x y : number) :
  le x y -> (hedge_rank (fuel_signal x) <= hedge_rank (fuel_signal y))%nat.
Proof.
  intros H. unfold fuel_signal, gtb.
  destruct x as [a | | |], y as [b | | |]; simpl in H; try contradiction;
    simpl; try lia.
  - destruct (Qltb 2 a) eqn:A2, (Qltb 2 b) eqn:B2,
      (Qltb 0.5 a) eqn:A1, (Qltb 0.5 b) eqn:B1,
      (Qltb a (-1)) eqn:A0, (Qltb b (-1)) eqn:B0; simpl; try lia; exfalso;
      rewrite ?Qltb_lt, ?Qltb_ge in *; lra.
  - destruct (Qltb 2 a), (Qltb 0.5 a), (Qltb a (-1)); simpl; lia.
Qed.

Lemma fuel_signal_never_steps_down_witness :
  (hedge_rank (fuel_signal (Fin (-1.5))) <= hedge_rank (fuel_signal (Fin 0.6)))%nat.
Proof. apply (fuel_signal_never_steps_down (Fin (-1.5)) (Fin 0.6)). discriminate. Defined.

(** X18.  The currency ladder reads the size of the USD/INR change alone:
    a fall and a rise of the same size give the same signal, and the
    signal never steps down as the size grows. *)
Theorem currency_signal_reads_the_size (x y : number) :
  le (abs x) (abs y) ->
  (volatility_rank (currency_signal x)
   <= volatility_rank (currency_signal y))%nat
  /\ currency_signal (neg x) = currency_signal x.
Proof.
  intros H. split.
  - unfold currency_signal, gtb.
    destruct (abs x) as [a | | |], (abs y) as [b | | |]; simpl in H;
      try contradiction; simpl; try lia.
    + destruct (Qltb 1 a) eqn:A2, (Qltb 1 b) eqn:B2,
        (Qltb 0.3 a) eqn:A1, (Qltb 0.3 b) eqn:B1; simpl; try lia; exfalso;
        rewrite ?Qltb_lt, ?Qltb_ge in *; lra.
    + destruct (Qltb 1 a), (Qltb 0.3 a); simpl; lia.
  - unfold currency_signal, gtb.
    destruct x as [a | | |]; try reflexivity.
    unfold neg, abs, ltb.
    rewrite (Qltb_comp 1 1 (Qabs (- a)) (Qabs a) (Qeq_refl 1) (Qabs_opp a)).
    rewrite (Qltb_comp 0.3 0.3 (Qabs (- a)) (Qabs a) (Qeq_refl 0.3)
               (Qabs_opp a)).
    reflexivity.
Qed.

Lemma currency_signal_reads_the_size_witness :
  (volatility_rank (currency_signal (Fin (-0.5)))
   <= volatility_rank (currency_signal (Fin 1.2)))%nat
  /\ currency_signal (neg (Fin (-0.5))) = currency_signal (Fin (-0.5)).
Proof.
  apply (currency_signal_reads_the_size (Fin (-0.5)) (Fin 1.2)). discriminate.
Defined.

(** ** The sign of a change *)

Lemma scaled_quotient_sign (d p : Q) :
  (0 < p)%Q ->
  ((0 < d / p * 100)%Q <-> (0 < d)%Q) /\ ((d / p * 100 < 0)%Q <-> (d < 0)%Q).
Proof.
  intros Hp. pose proof (Qinv_lt_0_compat p Hp) as Hk.
  unfold Qdiv. set (k := (/ p)%Q) in *. split; split; intros H; nra.
Qed.

(** X19.  Over a positive previous value a change has the sign of the
    move: it is positive exactly when the latest value is above the
    previous one and negative exactly when it is below.  Over a negative
    previous value the sign is the opposite one, so a price that rises
    from a negative value is reported as falling. *)
Theorem change_has_the_sign_of_the_move (latest previous : Q) :
  ~ (previous == 0)%Q ->
  ((0 < previous)%Q ->
   (lt (Fin 0) (pct_change (Fin latest) (Fin previous))
    <-> (previous < latest)%Q)
   /\ (lt (pct_change (Fin latest) (Fin previous)) (Fin 0)
       <-> (latest < previous)%Q))
  /\ ((previous < 0)%Q ->
      (lt (Fin 0) (pct_change (Fin latest) (Fin previous))
       <-> (latest < previous)%Q)
      /\ (lt (pct_change (Fin latest) (Fin previous)) (Fin 0)
          <-> (previous < latest)%Q)).
Proof.
  intros Hz. rewrite (pct_change_finite latest previous Hz). simpl.
  split; intros Hp.
  - destruct (scaled_quotient_sign (latest - previous) previous Hp)
      as [H1 H2].
    rewrite H1, H2. split; split; intros H; lra.
  - assert (0 < - previous)%Q as Hn by lra.
    destruct (scaled_quotient_sign (previous - latest) (- previous) Hn)
      as [H1 H2].
    assert ((previous - latest) / - previous * 100
            == (latest - previous) / previous * 100)%Q as E
      by (field; exact Hz).
    rewrite E in H1, H2. rewrite H1, H2. split; split; intros H; lra.
Qed.

(** A rise from -2 to -1 is a change of -50 per cent. *)
Lemma change_has_the_sign_of_the_move_witness :
  lt (pct_change (Fin (-1)) (Fin (-2))) (Fin 0) <-> (-2 < -1)%Q.
Proof.
  apply (proj2 (change_has_the_sign_of_the_move (-1) (-2) ltac:(discriminate)));
    reflexivity.
Defined.

(** ** What the calculator reads *)

(** X20.  The calculator reads the two newest rows of each frame and no
    other: the rest of the (up to 100) rows [load_data] hands over never
    reaches the mapping. *)
Theorem older_rows_do_not_reach_the_mapping (fuel_df : FuelFrame)
    (currency_df : CurrencyFrame) :
  calculate_price_changes fuel_df currency_df
  = calculate_price_changes (take 2 fuel_df) (take 2 currency_df).
Proof.
  destruct fuel_df as [| lf [| pf rf]], currency_df as [| lc [| pc rc]];
    reflexivity.
Qed.
